(** * Numerical tools of [safe/common/numerics.py]

    A shallow embedding of the grid/point toolkit of the repository
    ([ensure_numeric], [nan_allclose], [erf], [normal_cdf],
    [axes_to_points], [grid_to_points], [geotransform_to_axes]) and the
    properties the specification states about it.

    Numbers.  [axes_to_points] and [grid_to_points] only copy and
    compare coordinates, which no rounding touches; they are embedded
    over the rationals [Q], and so is [geotransform_to_axes] for what
    does not depend on the values of its axes.  Where rounding or the
    infinities decide the outcome, the function is embedded a second
    time over the binary64 numbers, in the module [Binary64]:
    [geotransform_to_axes] and [nan_allclose].  The module [NanClose]
    holds [nan_allclose] over not-a-number and the finite rationals, for
    the properties that do not depend on rounding.  [erf] needs the
    exponential and is embedded over the real numbers, and [normal_cdf]
    with it. *)

From Stdlib Require Import Reals.
From Stdlib Require Import String.
From Stdlib Require Import List Bool Arith ZArith QArith Qabs Psatz Btauto.
From Stdlib Require Floats.
Import ListNotations.

Set Implicit Arguments.
Set Warnings "-inexact-float".

(** ** Exceptions and the result of a call *)

Module Py.

(** The exceptions the embedded functions can raise.  [VerifyFailed] is
    what [verify] of the [utilities] module raises; the specification
    names it [InvalidGeometryError] where an axis or a resolution is
    checked. *)
Inductive exn : Type :=
| Exception (msg : string)
| VerifyFailed (msg : option string)
| IndexError
| TypeError
| ValueError.

Definition InvalidGeometryError : option string -> exn := VerifyFailed.

Inductive result (A : Type) : Type :=
| Ok (a : A)
| Raise (e : exn).

Arguments Ok {A} a.
Arguments Raise {A} e.

Definition bind {A B} (c : result A) (k : A -> result B) : result B :=
  match c with
  | Ok a => k a
  | Raise e => Raise e
  end.

(** [s[i]] for a sequence [s] and a non-negative index [i]. *)
Definition getitem {A} (s : list A) (i : nat) : result A :=
  match nth_error s i with
  | Some a => Ok a
  | None => Raise IndexError
  end.

(** Modelled from the spec: [verify] is imported from the [utilities]
    module, which is not among the sources.  The specification has the
    checks made with it fail with an error that carries the message
    the caller built; [verify] is given the already evaluated
    statement and the optional message, nothing else. *)
Definition verify (statement : bool) (message : option string) : result unit :=
  if statement then Ok tt else Raise (InvalidGeometryError message).

End Py.

Import Py.

Notation "x <- c ;; k" := (Py.bind c (fun x => k))
  (at level 61, c at next level, right associativity).
Notation "c ;;; k" := (Py.bind c (fun _ => k))
  (at level 61, right associativity).

(** ** Comparison of rationals as a boolean, as Python's [<] gives it *)

Definition Qltb (a b : Q) : bool :=
  (Qnum a * QDen b <? Qnum b * QDen a)%Z.

(** ** [axes_to_points] *)

(** [numpy.ones(n)]. *)
Definition ones (n : nat) : list Q := repeat 1 n.

(** [numpy.kron] of two one-dimensional arrays: every element of [a]
    scales a copy of [b]. *)
Definition kron (a b : list Q) : list Q :=
  flat_map (fun ai => map (fun bj => ai * bj) b) a.

(** [numpy.flipud] of a one-dimensional array. *)
Definition flipud (y : list Q) : list Q := rev y.

(** The two reshaped columns joined along axis 1: row [i] is
    [(X[i], Y[i])]. *)
Definition concatenate_columns (X Y : list Q) : list (Q * Q) := combine X Y.

Definition axes_to_points (x y : list Q) : result (list (Q * Q)) :=
  let y := flipud y in
  let X := kron (ones (length y)) x in
  let Y := kron y (ones (length x)) in
  let N := length X in
  verify (length Y =? N)%nat None ;;;
  let P := concatenate_columns X Y in
  Ok P.

(** ** [grid_to_points] *)

(** [A.reshape(-1)] of a two-dimensional array held as its list of rows:
    the rows one after the other. *)
Definition reshape_flat (A : list (list Q)) : list Q := concat A.

Section GridToPoints.

(** [str] of an axis, which the messages quote.  How Python prints the
    numbers is not modelled. *)
Variable str : list Q -> string.

Definition grid_to_points (A : list (list Q)) (x y : list Q)
  : result (list (Q * Q) * list Q) :=
  let msg :=
    ("Longitudes must be increasing (west to east). I got " ++ str x)%string in
  x0 <- getitem x 0 ;;
  x1 <- getitem x 1 ;;
  verify (Qltb x0 x1) (Some msg) ;;;
  let msg :=
    ("Latitudes must be increasing (south to north). I got " ++ str y)%string in
  y0 <- getitem y 0 ;;
  y1 <- getitem y 1 ;;
  verify (Qltb y0 y1) (Some msg) ;;;
  points <- axes_to_points x y ;;
  let values := reshape_flat A in
  Ok (points, values).

End GridToPoints.

(** ** [geotransform_to_axes] *)

(** [numpy.arange(0, n)]. *)
Definition arange (n : nat) : list Q :=
  map (fun i => inject_Z (Z.of_nat i)) (seq 0 n).

(** [y[-1] = v] on a one-dimensional array. *)
Definition set_last (y : list Q) (v : Q) : list Q :=
  match y with
  | [] => []
  | _ => removelast y ++ [v]
  end.

(** [numpy.linspace(start, stop, num)] with the end point included, as
    the numpy of the Python 2 this module is written for computes it:
    nothing for [num <= 0], [start] alone for [num = 1], and otherwise
    [arange(0, num) * step + start] with the last value overwritten by
    [stop]. *)
Definition linspace (start stop : Q) (num : Z) : list Q :=
  if (num <=? 0)%Z then []
  else if (num =? 1)%Z then [start]
  else
    let step := (stop - start) / inject_Z (num - 1) in
    let y := map (fun i => i * step + start) (arange (Z.to_nat num)) in
    set_last y stop.

Definition geotransform_to_axes (G : list Q) (nx ny : Z)
  : result (list Q * list Q) :=
  lon_ul <- getitem G 0 ;;
  lat_ul <- getitem G 3 ;;
  dx <- getitem G 1 ;;
  g5 <- getitem G 5 ;;
  let dy := - g5 in
  verify (Qltb 0 dx) None ;;;
  verify (Qltb 0 dy) None ;;;
  let lon_ll := lon_ul in
  let lat_ll := lat_ul - inject_Z ny * dy in
  let lon_ur := lon_ul + inject_Z nx * dx in
  let dx2 := dx / 2 in
  let dy2 := dy / 2 in
  let x := linspace (lon_ll + dx2) (lon_ur - dx2) nx in
  let y := linspace (lat_ll + dy2) (lat_ul - dy2) ny in
  Ok (x, y).

(** ** Scalars and arrays *)

(** A numpy operand: a scalar or an array, the array held as the list of
    its elements in row-major order. *)
Inductive nd (A : Type) : Type :=
| Scalar (a : A)
| Array (l : list A).

Arguments Scalar {A} a.
Arguments Array {A} l.

Definition elems {A} (v : nd A) : list A :=
  match v with
  | Scalar a => [a]
  | Array l => l
  end.

Definition nd_map {A B} (f : A -> B) (v : nd A) : nd B :=
  match v with
  | Scalar a => Scalar (f a)
  | Array l => Array (map f l)
  end.

Fixpoint zip_with {A B C} (f : A -> B -> C) (l : list A) (m : list B) : list C :=
  match l, m with
  | a :: l', b :: m' => f a b :: zip_with f l' m'
  | _, _ => []
  end.

(** An elementwise binary operation.  A scalar is broadcast against an
    array; two arrays must have the same number of elements. *)
Definition nd_map2 {A B C} (f : A -> B -> C) (v : nd A) (w : nd B)
  : result (nd C) :=
  match v, w with
  | Scalar a, Scalar b => Ok (Scalar (f a b))
  | Scalar a, Array m => Ok (Array (map (f a) m))
  | Array l, Scalar b => Ok (Array (map (fun a => f a b) l))
  | Array l, Array m =>
      if (length l =? length m)%nat then Ok (Array (zip_with f l m))
      else Raise ValueError
  end.

(** [numpy.any] and [numpy.all]. *)
Definition any (v : nd bool) : bool := existsb (fun b => b) (elems v).
Definition all (v : nd bool) : bool := forallb (fun b => b) (elems v).

Fixpoint select {A} (l : list A) (mask : list bool) : list A :=
  match l, mask with
  | a :: l', b :: mask' => if b then a :: select l' mask' else select l' mask'
  | _, _ => []
  end.

(** [v[mask]] for a boolean array [mask]: the elements where the mask is
    set.  A Python scalar cannot be indexed. *)
Definition getmask {A} (v : nd A) (mask : nd bool) : result (nd A) :=
  match v, mask with
  | Array l, Array m =>
      if (length l =? length m)%nat then Ok (Array (select l m))
      else Raise IndexError
  | _, _ => Raise TypeError
  end.

(** ** [nan_allclose] *)

Module NanClose.

(** An element: not-a-number or a finite value. *)
Inductive float : Type :=
| NaN
| Fin (q : Q).

Definition is_nan (a : float) : bool :=
  match a with NaN => true | Fin _ => false end.

Definition lift2 (op : Q -> Q -> Q) (a b : float) : float :=
  match a, b with
  | Fin p, Fin q => Fin (op p q)
  | _, _ => NaN
  end.

Definition fadd := lift2 Qplus.
Definition fsub := lift2 Qminus.
Definition fmul := lift2 Qmult.

Definition fabs (a : float) : float :=
  match a with NaN => NaN | Fin q => Fin (Qabs q) end.

(** [a <= b]; false as soon as one side is not-a-number. *)
Definition fle (a b : float) : bool :=
  match a, b with
  | Fin p, Fin q => Qle_bool p q
  | _, _ => false
  end.

(** [numpy.isnan]. *)
Definition isnan (v : nd float) : nd bool := nd_map is_nan v.

(** The test of [numpy.allclose] on one pair of elements:
    [abs(a - b) <= atol + rtol * abs(b)]. *)
Definition within_tol (rtol atol a b : float) : bool :=
  fle (fabs (fsub a b)) (fadd atol (fmul rtol (fabs b))).

(** [numpy.allclose(x, y, rtol, atol)]. *)
Definition allclose (x y : nd float) (rtol atol : float) : result bool :=
  c <- nd_map2 (within_tol rtol atol) x y ;;
  Ok (all c).

(** [-xn] on a boolean array is its elementwise negation in the numpy
    this module is written for. *)
Definition neg_mask (m : nd bool) : nd bool := nd_map negb m.

Definition nan_allclose (x y : nd float) (rtol atol : float) : result bool :=
  let xn := isnan x in
  let yn := isnan y in
  differ <- nd_map2 xorb xn yn ;;
  if any differ then Ok false
  else if all xn then Ok true
  else
    xy <- (if any xn
           then x' <- getmask x (neg_mask xn) ;;
                y' <- getmask y (neg_mask yn) ;;
                Ok (x', y')
           else Ok (x, y)) ;;
    allclose (fst xy) (snd xy) rtol atol.


End NanClose.

(** ** [erf] *)

Module Erf.

Local Open Scope R_scope.

Definition ltb0 (z : R) : bool := if Rlt_dec z 0 then true else false.

(** The vectorised expression of the source at one element [z] of the
    array: [t], the Horner form under the exponential, and the sign
    flip where [z < 0.0]. *)
Definition erf_elem (z : R) : R :=
  let t := 1 / (1 + 5 / 10 * Rabs z) in
  let ans :=
    1 - t * exp (- z * z - 126551223 / 100000000 +
                 t * (100002368 / 100000000 +
                 t * (37409196 / 100000000 +
                 t * (9678418 / 100000000 +
                 t * (- (18628806 / 100000000) +
                 t * (27886807 / 100000000 +
                 t * (- (113520398 / 100000000) +
                 t * (148851587 / 100000000 +
                 t * (- (82215223 / 100000000) +
                 t * (17087277 / 100000000)))))))))) in
  if ltb0 z then - ans else ans.

(** [erf]: [len(z)] fails on a scalar, which is then wrapped into a
    one-element list and unwrapped from the answer at the end. *)
Definition erf (z : nd R) : result (nd R) :=
  let '(scalar, z) :=
    match z with
    | Scalar a => (true, [a])
    | Array l => (false, l)
    end in
  let ans := map erf_elem z in
  if scalar then a <- getitem ans 0 ;; Ok (Scalar a)
  else Ok (Array ans).

End Erf.

(** ** [normal_cdf] *)

Module Cdf.

Local Open Scope R_scope.

(** [normal_cdf]: the argument of [erf] and the result are computed
    element by element; [mu] and [sigma] are scalars.  Where the source
    divides by zero, numpy answers with an infinity or not-a-number,
    which the real numbers do not have; an argument so large or so small
    that the quotient leaves the range of the doubles is outside this
    model as well. *)
Definition normal_cdf (x : nd R) (mu sigma : R) : result (nd R) :=
  let arg := nd_map (fun xi => (xi - mu) / (sigma * sqrt 2)) x in
  e <- Erf.erf arg ;;
  let res := nd_map (fun ei => (1 + ei) / 2) e in
  Ok res.

End Cdf.

(** ** [ensure_numeric] *)

Module Numeric.

Inductive dtype : Type := float_ | int_.

Definition dtype_eqb (a b : dtype) : bool :=
  match a, b with
  | float_, float_ | int_, int_ => true
  | _, _ => false
  end.

(** A Python number. *)
Inductive number : Type :=
| PyInt (z : Z)
| PyFloat (q : Q).

Definition number_dtype (n : number) : dtype :=
  match n with PyInt _ => int_ | PyFloat _ => float_ end.

Definition number_value (n : number) : Q :=
  match n with PyInt z => inject_Z z | PyFloat q => q end.

(** An array object: element type, shape and elements. *)
Record ndarray : Type := mk_ndarray {
  arr_dtype : dtype;
  arr_shape : list nat;
  arr_data : list Q
}.

(** Objects live in a heap and are named by their address, so that an
    array handed back can be told from a copy of it. *)
Definition ref : Type := nat.
Definition heap : Type := list ndarray.

Definition alloc (a : ndarray) (h : heap) : ref * heap :=
  (length h, h ++ [a]).

(** What numpy can make an array of: an array object, a scalar or a
    flat sequence of numbers. *)
Inductive arraylike : Type :=
| Ndarray (r : ref)
| Number (n : number)
| Sequence (l : list number).

(** What [ensure_numeric] is called with: a string or something numpy
    can make an array of. *)
Inductive pyobj : Type :=
| PyStr (s : string)
| PyObj (o : arraylike).

(** Conversion of a value to an element type: to an integer by
    truncation towards zero.  The integers are unbounded and the
    conversion to a float is exact here; numpy refuses an integer beyond
    the C long with an OverflowError and rounds one beyond 2^53 to the
    nearest double, so the properties of the conversions are stated of
    calls that return. *)
Definition cast (t : dtype) (q : Q) : Q :=
  match t with
  | float_ => q
  | int_ => inject_Z (Z.quot (Qnum q) (QDen q))
  end.

(** The element type numpy infers for a sequence of numbers. *)
Definition infer (l : list number) : dtype :=
  if forallb (fun n => dtype_eqb (number_dtype n) int_) l then int_ else float_.

Definition or_else (t : option dtype) (d : dtype) : dtype :=
  match t with Some t => t | None => d end.

(** [numpy.array(A, dtype=t, copy=c)].  Plain numbers always make a new
    array, of no dimension for a scalar.  An array object is handed back
    as it is when no copy is asked for and its element type is the one
    requested; otherwise its conversion is a new object. *)
Definition numpy_array (A : arraylike) (t : option dtype) (copy : bool)
    (h : heap) : result (ref * heap) :=
  match A with
  | Number n =>
      let d := or_else t (number_dtype n) in
      Ok (alloc (mk_ndarray d [] [cast d (number_value n)]) h)
  | Sequence l =>
      let d := or_else t (infer l) in
      Ok (alloc (mk_ndarray d [length l]
                   (map (fun n => cast d (number_value n)) l)) h)
  | Ndarray r =>
      a <- getitem h r ;;
      let d := or_else t (arr_dtype a) in
      if negb copy && dtype_eqb (arr_dtype a) d then Ok (r, h)
      else Ok (alloc (mk_ndarray d (arr_shape a) (map (cast d) (arr_data a))) h)
  end.

Definition ensure_numeric (A : pyobj) (typecode : option dtype) (h : heap)
  : result (ref * heap) :=
  match A with
  | PyStr _ =>
      let msg := "Sorry, cannot handle strings in ensure_numeric()"%string in
      Raise (Exception msg)
  | PyObj A =>
      match typecode with
      | None =>
          match A with
          | Ndarray r => Ok (r, h)
          | _ => numpy_array A None true h
          end
      | Some t => numpy_array A (Some t) false h
      end
  end.

End Numeric.

(** ** Double precision *)

(** Where the outcome depends on rounding or on the infinities, the
    function is embedded over the binary64 numbers themselves, with the
    operations of the processor: [geotransform_to_axes], whose axes are
    made by [numpy.linspace], and [nan_allclose], whose test is the one
    of [numpy.allclose]. *)
Module Binary64.

Import PrimFloat SpecFloat FloatOps.
Local Open Scope float_scope.

(** [float(n)] of a Python integer: the nearest double. *)
Definition of_int (z : Z) : float :=
  SF2Prim (binary_normalize prec emax z 0 false).

(** [numpy.arange(0, n)], as it enters a product with a double. *)
Definition arange (n : nat) : list float :=
  map (fun i => of_int (Z.of_nat i)) (seq 0 n).

(** [y[-1] = v] on a one-dimensional array. *)
Definition set_last (y : list float) (v : float) : list float :=
  match y with
  | [] => []
  | _ => removelast y ++ [v]
  end.

(** [numpy.linspace(start, stop, num)] with the end point included, as
    the numpy of the Python 2 this module is written for computes it:
    nothing for [num <= 0], [start] alone for [num = 1], and otherwise
    [arange(0, num) * step + start] with the last value overwritten by
    [stop]. *)
Definition linspace (start stop : float) (num : Z) : list float :=
  if (num <=? 0)%Z then []
  else if (num =? 1)%Z then [start]
  else
    let step := (stop - start) / of_int (num - 1) in
    let y := map (fun i => i * step + start) (arange (Z.to_nat num)) in
    set_last y stop.

(** [geotransform_to_axes]; the entries of [G] are taken after
    [float()]. *)
Definition geotransform_to_axes (G : list float) (nx ny : Z)
  : result (list float * list float) :=
  lon_ul <- getitem G 0 ;;
  lat_ul <- getitem G 3 ;;
  dx <- getitem G 1 ;;
  g5 <- getitem G 5 ;;
  let dy := - g5 in
  verify (0 <? dx) None ;;;
  verify (0 <? dy) None ;;;
  let lon_ll := lon_ul in
  let lat_ll := lat_ul - of_int ny * dy in
  let lon_ur := lon_ul + of_int nx * dx in
  let dx2 := dx / 2 in
  let dy2 := dy / 2 in
  let x := linspace (lon_ll + dx2) (lon_ur - dx2) nx in
  let y := linspace (lat_ll + dy2) (lat_ul - dy2) ny in
  Ok (x, y).

(** [numpy.isnan] and [numpy.isinf]. *)
Definition isnan (v : nd float) : nd bool := nd_map is_nan v.
Definition isinf (v : nd float) : nd bool := nd_map is_infinity v.

(** [numpy.array(a, copy=False, ndmin=1)]: a scalar becomes an array of
    one element. *)
Definition atleast_1d (v : nd float) : nd float := Array (elems v).

(** The elementwise test of [numpy.allclose],
    [less_equal(abs(x - y), atol + rtol * abs(y))]. *)
Definition within_tol (rtol atol a b : float) : bool :=
  abs (a - b) <=? atol + rtol * abs b.

(** [numpy.allclose(a, b, rtol, atol)].  When there is an infinity on
    either side, the infinities must sit at the same positions and be
    equal there, and they are taken out before the test; an early
    [return False] is the answer [None] of the first part. *)
Definition allclose (a b : nd float) (rtol atol : float) : result bool :=
  let x := atleast_1d a in
  let y := atleast_1d b in
  let xinf := isinf x in
  let yinf := isinf y in
  xy <- (if any xinf || any yinf
         then
           same <- nd_map2 Bool.eqb xinf yinf ;;
           if negb (all same) then Ok None
           else
             xi <- getmask x xinf ;;
             yi <- getmask y xinf ;;
             equal <- nd_map2 eqb xi yi ;;
             if negb (all equal) then Ok None
             else
               x' <- getmask x (nd_map negb xinf) ;;
               y' <- getmask y (nd_map negb xinf) ;;
               Ok (Some (x', y'))
         else Ok (Some (x, y))) ;;
  match xy with
  | None => Ok false
  | Some (x, y) =>
      c <- nd_map2 (within_tol rtol atol) x y ;;
      Ok (all c)
  end.

Definition nan_allclose (x y : nd float) (rtol atol : float) : result bool :=
  let xn := isnan x in
  let yn := isnan y in
  differ <- nd_map2 xorb xn yn ;;
  if any differ then Ok false
  else if all xn then Ok true
  else
    xy <- (if any xn
           then x' <- getmask x (nd_map negb xn) ;;
                y' <- getmask y (nd_map negb yn) ;;
                Ok (x', y')
           else Ok (x, y)) ;;
    allclose (fst xy) (snd xy) rtol atol.

End Binary64.

(** ** Predicates of the statements *)

(** Two operands have the same shape: two scalars, or two arrays with
    as many elements. *)
Definition same_shape {A B} (v : nd A) (w : nd B) : Prop :=
  match v, w with
  | Scalar _, Scalar _ => True
  | Array l, Array m => length l = length m
  | _, _ => False
  end.

(** * Properties *)

(** ** Auxiliary facts on lists and rationals *)

Lemma Qltb_lt (a b : Q) : Qltb a b = true <-> a < b.
Proof. unfold Qltb, Qlt. apply Z.ltb_lt. Qed.

Lemma Qltb_ge (a b : Q) : Qltb a b = false <-> b <= a.
Proof. unfold Qltb, Qle. apply Z.ltb_ge. Qed.

(** Multiplying by one leaves a rational as it is written, not merely
    equal as a fraction. *)
Lemma Qmult_one_l (q : Q) : 1 * q = q.
Proof. destruct q as [n d]. unfold Qmult. simpl. now destruct n. Qed.

Lemma Qmult_one_r (q : Q) : q * 1 = q.
Proof.
  destruct q as [n d]. unfold Qmult. simpl.
  now rewrite Z.mul_1_r, Pos.mul_1_r.
Qed.

Section Blocks.

Context {A B : Type}.
Variable f : A -> list B.
Variable n : nat.

Lemma length_flat_map_block (l : list A) :
  (forall a, In a l -> length (f a) = n) ->
  length (flat_map f l) = (length l * n)%nat.
Proof.
  induction l as [|a l IH]; intros H; simpl; [reflexivity|].
  rewrite length_app, IH, (H a); auto with datatypes.
Qed.

Lemma nth_error_flat_map_block (l : list A) :
  (forall a, In a l -> length (f a) = n) ->
  forall row col a,
    nth_error l row = Some a -> (col < n)%nat ->
    nth_error (flat_map f l) (row * n + col) = nth_error (f a) col.
Proof.
  induction l as [|a0 l IH]; intros H row col a Hrow Hcol.
  - destruct row; discriminate.
  - assert (Ha0 : length (f a0) = n) by (apply H; now left).
    destruct row as [|row]; simpl in *.
    + injection Hrow as ->. apply nth_error_app1. lia.
    + rewrite nth_error_app2 by lia.
      replace (n + row * n + col - length (f a0))%nat
        with (row * n + col)%nat by lia.
      apply IH; auto.
Qed.

End Blocks.

Lemma nth_error_combine {A B} (l : list A) (m : list B) i a b :
  nth_error l i = Some a -> nth_error m i = Some b ->
  nth_error (combine l m) i = Some (a, b).
Proof.
  revert m i. induction l as [|a0 l IH]; intros [|b0 m] [|i]; simpl;
    try discriminate.
  - now intros [= ->] [= ->].
  - apply IH.
Qed.

Lemma nth_error_repeat {A} (a : A) n i :
  (i < n)%nat -> nth_error (repeat a n) i = Some a.
Proof.
  revert i. induction n as [|n IH]; intros [|i] H; simpl; try lia; auto.
  apply IH. lia.
Qed.

Lemma nth_error_nth_lt {A} (l : list A) i d :
  (i < length l)%nat -> nth_error l i = Some (nth i l d).
Proof. intros H. now apply nth_error_nth'. Qed.

(** ** The two Kronecker products of [axes_to_points] *)

Lemma length_kron (a b : list Q) :
  length (kron a b) = (length a * length b)%nat.
Proof.
  unfold kron. apply length_flat_map_block. intros. apply length_map.
Qed.

Lemma length_ones n : length (ones n) = n.
Proof. apply repeat_length. Qed.

Lemma nth_error_kron_ones_l (x : list Q) ny row col :
  (row < ny)%nat -> (col < length x)%nat ->
  nth_error (kron (ones ny) x) (row * length x + col) = nth_error x col.
Proof.
  intros Hr Hc. unfold kron.
  rewrite (@nth_error_flat_map_block _ _ _ (length x) (ones ny)) with (a := 1).
  - rewrite nth_error_map.
    destruct (nth_error x col); simpl; [|reflexivity].
    now rewrite Qmult_one_l.
  - intros. apply length_map.
  - now apply nth_error_repeat.
  - assumption.
Qed.

Lemma nth_error_kron_ones_r (y : list Q) nx row col v :
  nth_error y row = Some v -> (col < nx)%nat ->
  nth_error (kron y (ones nx)) (row * nx + col) = Some v.
Proof.
  intros Hr Hc. unfold kron.
  rewrite (@nth_error_flat_map_block _ _ _ nx y) with (a := v); auto.
  - unfold ones. rewrite nth_error_map, nth_error_repeat by assumption. simpl.
    now rewrite Qmult_one_r.
  - intros. now rewrite length_map, length_ones.
Qed.

Lemma axes_to_points_eq (x y : list Q) :
  axes_to_points x y
  = Ok (combine (kron (ones (length y)) x) (kron (rev y) (ones (length x)))).
Proof.
  unfold axes_to_points, flipud, concatenate_columns.
  rewrite !length_kron, !length_ones, !length_rev, Nat.eqb_refl.
  reflexivity.
Qed.

(** ** [axes_to_points] *)

Lemma length_axes_to_points_grid (x y : list Q) :
  length (combine (kron (ones (length y)) x) (kron (rev y) (ones (length x))))
  = (length x * length y)%nat.
Proof. rewrite length_combine, !length_kron, !length_ones, length_rev. lia. Qed.

(** C1: for all axes [x] (length nx) and [y] (length ny),
    [axes_to_points x y] returns nx*ny points, and the point at index
    [row * nx + col], for [row < ny] and [col < nx], is
    [(x[col], y_reversed[row])] with [y_reversed] the y-axis in reversed
    order: x varies fastest and the y values run from last to first. *)
Theorem axes_to_points_index (x y : list Q) :
  exists P,
    axes_to_points x y = Ok P /\
    length P = (length x * length y)%nat /\
    forall row col, (row < length y)%nat -> (col < length x)%nat ->
      nth_error P (row * length x + col)
      = Some (nth col x 0, nth row (rev y) 0).
Proof.
  rewrite axes_to_points_eq. eexists. split; [reflexivity|]. split.
  - apply length_axes_to_points_grid.
  - intros row col Hr Hc. apply nth_error_combine.
    + rewrite nth_error_kron_ones_l by assumption.
      now apply nth_error_nth_lt.
    + apply nth_error_kron_ones_r; [|assumption].
      apply nth_error_nth_lt. now rewrite length_rev.
Qed.

Lemma axes_to_points_index_witness :
  exists P,
    axes_to_points [1; 2; 3] [10; 20] = Ok P /\
    nth_error P (1 * 3 + 2) = Some (3, 10).
Proof.
  destruct (axes_to_points_index [1; 2; 3] [10; 20]) as (P & HP & _ & Hn).
  exists P. split; [exact HP|].
  apply (Hn 1%nat 2%nat); simpl; lia.
Defined.

(** C2: on the example of the docstring, [x = [1, 2, 3]] and
    [y = [10, 20]], the function returns the six points with the rows of
    [y = 20] first; the list the docstring prints, with the rows of
    [y = 10] first, is not what is returned. *)
Theorem axes_to_points_docstring_example :
  axes_to_points [1; 2; 3] [10; 20]
  = Ok [(1, 20); (2, 20); (3, 20); (1, 10); (2, 10); (3, 10)]
  /\ axes_to_points [1; 2; 3] [10; 20]
     <> Ok [(1, 10); (2, 10); (3, 10); (1, 20); (2, 20); (3, 20)].
Proof. split; [reflexivity | discriminate]. Qed.

(** ** [grid_to_points] *)

Lemma nth_error_concat_block (A : list (list Q)) nx i :
  Forall (fun r => length r = nx) A ->
  (i < length A * nx)%nat ->
  exists r v,
    nth_error A (i / nx) = Some r /\
    nth_error r (i mod nx) = Some v /\
    nth_error (concat A) i = Some v.
Proof.
  intros Hshape Hi.
  assert (Hnx : nx <> 0%nat) by lia.
  assert (Hrow : (i / nx < length A)%nat)
    by (apply Nat.Div0.div_lt_upper_bound; lia).
  assert (Hcol : (i mod nx < nx)%nat) by now apply Nat.mod_upper_bound.
  destruct (nth_error A (i / nx)) as [r|] eqn:Er;
    [|apply nth_error_None in Er; lia].
  assert (Hr : length r = nx).
  { rewrite Forall_forall in Hshape. apply Hshape.
    eapply nth_error_In; eauto. }
  destruct (nth_error r (i mod nx)) as [v|] eqn:Ev;
    [|apply nth_error_None in Ev; lia].
  exists r, v. repeat split; auto.
  replace (concat A) with (flat_map (fun r : list Q => r) A)
    by (now rewrite flat_map_concat_map, map_id).
  rewrite (Nat.div_mod_eq i nx) at 1.
  rewrite (Nat.mul_comm nx).
  rewrite (@nth_error_flat_map_block _ _ (fun r => r) nx A) with (a := r); auto.
  now apply Forall_forall.
Qed.

Section GridToPointsFacts.

Variable str : list Q -> string.

Lemma grid_to_points_eq A (x y : list Q) x0 x1 y0 y1 :
  nth_error x 0 = Some x0 -> nth_error x 1 = Some x1 ->
  nth_error y 0 = Some y0 -> nth_error y 1 = Some y1 ->
  x0 < x1 -> y0 < y1 ->
  grid_to_points str A x y
  = (points <- axes_to_points x y ;; Ok (points, concat A)).
Proof.
  intros Hx0 Hx1 Hy0 Hy1 Hx Hy. unfold grid_to_points, getitem.
  rewrite Hx0, Hx1, Hy0, Hy1. simpl.
  apply Qltb_lt in Hx, Hy. rewrite Hx, Hy. reflexivity.
Qed.

End GridToPointsFacts.

Section GridToPointsProperties.

Variable str : list Q -> string.

(** C3: for a grid [A] of shape (ny, nx) and axes [x] (length nx,
    [x[0] < x[1]]) and [y] (length ny, [y[0] < y[1]]),
    [grid_to_points A x y] returns [(points, values)] where [points] is
    [axes_to_points x y], [values] is [A] flattened row by row with no
    reversal ([values[i] = A[i / nx][i mod nx]] for every [i < nx*ny]),
    and both have nx*ny elements. *)
Theorem grid_to_points_flatten (A : list (list Q)) (x y : list Q)
    (nx ny : nat) (x0 x1 y0 y1 : Q) :
  length x = nx -> length y = ny ->
  length A = ny -> Forall (fun r => length r = nx) A ->
  nth_error x 0 = Some x0 -> nth_error x 1 = Some x1 -> x0 < x1 ->
  nth_error y 0 = Some y0 -> nth_error y 1 = Some y1 -> y0 < y1 ->
  exists points values,
    grid_to_points str A x y = Ok (points, values) /\
    axes_to_points x y = Ok points /\
    length points = (nx * ny)%nat /\
    length values = (nx * ny)%nat /\
    forall i, (i < nx * ny)%nat ->
      exists r v,
        nth_error A (i / nx) = Some r /\
        nth_error r (i mod nx) = Some v /\
        nth_error values i = Some v.
Proof.
  intros Lx Ly LA Hshape Hx0 Hx1 Hx Hy0 Hy1 Hy.
  rewrite (@grid_to_points_eq str A x y x0 x1 y0 y1) by assumption.
  rewrite axes_to_points_eq. simpl. eexists. exists (concat A).
  repeat split.
  - now rewrite length_axes_to_points_grid, Lx, Ly.
  - replace (concat A) with (flat_map (fun r : list Q => r) A)
      by (now rewrite flat_map_concat_map, map_id).
    rewrite (@length_flat_map_block _ _ (fun r => r) nx).
    + rewrite LA. lia.
    + now apply Forall_forall.
  - intros i Hi. apply nth_error_concat_block; [assumption|].
    rewrite LA. lia.
Qed.

(** C4: with at least two coordinates on each axis, [grid_to_points]
    fails with the error of [verify] and the message "Longitudes must be
    increasing ..." quoting [x] when [x[0] >= x[1]]; with the message
    "Latitudes must be increasing ..." quoting [y] when [x[0] < x[1]]
    but [y[0] >= y[1]]; and raises nothing when [x[0] < x[1]] and
    [y[0] < y[1]], whatever the coordinates that follow the first two. *)
Theorem grid_to_points_checks (A : list (list Q))
    (x0 x1 : Q) (xs : list Q) (y0 y1 : Q) (ys : list Q) :
  let x := x0 :: x1 :: xs in
  let y := y0 :: y1 :: ys in
  (x1 <= x0 ->
   grid_to_points str A x y
   = Raise (InvalidGeometryError (Some
       ("Longitudes must be increasing (west to east). I got " ++ str x)%string)))
  /\
  (x0 < x1 -> y1 <= y0 ->
   grid_to_points str A x y
   = Raise (InvalidGeometryError (Some
       ("Latitudes must be increasing (south to north). I got " ++ str y)%string)))
  /\
  (x0 < x1 -> y0 < y1 ->
   exists res, grid_to_points str A x y = Ok res).
Proof.
  intros x y. unfold grid_to_points. simpl. repeat split.
  - intros H. apply Qltb_ge in H. now rewrite H.
  - intros Hx Hy. apply Qltb_lt in Hx. apply Qltb_ge in Hy.
    now rewrite Hx, Hy.
  - intros Hx Hy. apply Qltb_lt in Hx, Hy. rewrite Hx, Hy. simpl.
    fold y. fold x. rewrite axes_to_points_eq. simpl. eauto.
Qed.


End GridToPointsProperties.

Lemma grid_to_points_flatten_witness :
  exists points values,
    grid_to_points (fun _ => EmptyString) [[1; 2; 3]; [4; 5; 6]] [1; 2; 3] [10; 20]
    = Ok (points, values) /\
    nth_error values 4 = Some 5.
Proof.
  destruct (@grid_to_points_flatten (fun _ => EmptyString)
              [[1; 2; 3]; [4; 5; 6]] [1; 2; 3] [10; 20] 3 2 1 2 10 20)
    as (points & values & Hrun & _ & _ & _ & Hval);
    try reflexivity.
  - repeat constructor.
  - exists points, values. split; [exact Hrun|].
    destruct (Hval 4%nat) as (r & v & Hr & Hv & Hi); [simpl; lia|].
    simpl in Hr. injection Hr as <-. simpl in Hv. injection Hv as <-.
    exact Hi.
Defined.

Lemma grid_to_points_checks_witness :
  grid_to_points (fun _ => "x"%string) [[1; 2; 3]; [4; 5; 6]] [3; 2; 1] [10; 20]
  = Raise (InvalidGeometryError (Some
      "Longitudes must be increasing (west to east). I got x"%string))
  /\ grid_to_points (fun _ => "x"%string) [[1; 2; 3]; [4; 5; 6]] [1; 2; 3] [20; 10]
  = Raise (InvalidGeometryError (Some
      "Latitudes must be increasing (south to north). I got x"%string))
  /\ exists res,
       grid_to_points (fun _ => "x"%string) [[1; 2; 3]; [4; 5; 6]] [1; 2; 3] [10; 20]
       = Ok res.
Proof.
  split; [|split].
  - apply (@grid_to_points_checks (fun _ => "x"%string)
             [[1; 2; 3]; [4; 5; 6]] 3 2 [1] 10 20 []).
    discriminate.
  - apply (@grid_to_points_checks (fun _ => "x"%string)
             [[1; 2; 3]; [4; 5; 6]] 1 2 [3] 20 10 []);
      [reflexivity | discriminate].
  - apply (@grid_to_points_checks (fun _ => "x"%string)
             [[1; 2; 3]; [4; 5; 6]] 1 2 [3] 10 20 []); reflexivity.
Defined.



(** ** [geotransform_to_axes] *)

Lemma length_removelast {A} (l : list A) :
  length (removelast l) = (length l - 1)%nat.
Proof. rewrite removelast_firstn_len, length_firstn. lia. Qed.

(** C6: when the resolution [G[1]] or [-G[5]] is not positive,
    [geotransform_to_axes] fails with the error of [verify], and the
    error carries no message: it is the same whichever of the two
    quantities failed and whatever its value. *)
Theorem geotransform_to_axes_resolution_error
    (g0 g1 g2 g3 g4 g5 : Q) (nx ny : Z) :
  g1 <= 0 \/ - g5 <= 0 ->
  geotransform_to_axes [g0; g1; g2; g3; g4; g5] nx ny
  = Raise (InvalidGeometryError None).
Proof.
  intros H. unfold geotransform_to_axes. simpl.
  destruct (Qltb 0 g1) eqn:Bx; simpl; [|reflexivity].
  destruct H as [H|H].
  - apply Qltb_ge in H. congruence.
  - apply Qltb_ge in H. now rewrite H.
Qed.

Lemma geotransform_to_axes_resolution_error_witness :
  geotransform_to_axes [100; 0; 0; 10; 0; -1] 9 9
  = Raise (InvalidGeometryError None)
  /\ geotransform_to_axes [100; 1; 0; 10; 0; 7] 9 9
     = Raise (InvalidGeometryError None).
Proof.
  split.
  - apply geotransform_to_axes_resolution_error. left. discriminate.
  - apply geotransform_to_axes_resolution_error. right. discriminate.
Defined.

(** ** [nan_allclose] *)

Lemma Forall2_nth_error {A B} (R : A -> B -> Prop) (l : list A) (m : list B) :
  length l = length m ->
  (Forall2 R l m <->
   forall i a b, nth_error l i = Some a -> nth_error m i = Some b -> R a b).
Proof.
  revert m. induction l as [|a0 l IH]; intros [|b0 m] Hlen; try discriminate.
  - split; [|constructor]. intros _ [|i] a b; discriminate.
  - injection Hlen as Hlen. split.
    + intros H. inversion H; subst. intros [|i] a b; simpl.
      * now intros [= <-] [= <-].
      * now apply IH.
    + intros H. constructor.
      * now apply (H 0%nat).
      * apply IH; [assumption|]. intros i. apply (H (S i)).
Qed.

Section NanCloseFacts.

Import NanClose.

Variables rtol atol : float.

Lemma masks_agree (l m : list float) :
  length l = length m ->
  (existsb (fun b => b) (zip_with xorb (map is_nan l) (map is_nan m)) = false
   <-> Forall2 (fun a b => is_nan a = is_nan b) l m).
Proof.
  revert m. induction l as [|a l IH]; intros [|b m] Hlen; try discriminate.
  - simpl. split; [constructor | reflexivity].
  - injection Hlen as Hlen. simpl. rewrite orb_false_iff, (IH m Hlen). split.
    + intros [Hab H]. constructor; [|assumption].
      now destruct (is_nan a), (is_nan b).
    + intros H. inversion H as [|? ? ? ? Hab H']; subst. split; [|assumption].
      rewrite Hab. apply xorb_nilpotent.
Qed.

Lemma length_select_agree (l m : list float) :
  Forall2 (fun a b => is_nan a = is_nan b) l m ->
  length (select l (map negb (map is_nan l))) = length (select m (map negb (map is_nan m))).
Proof.
  induction 1 as [|a b l m Hab _ IH]; [reflexivity|].
  simpl. rewrite <- Hab. destruct (is_nan a); simpl; now rewrite IH.
Qed.


Lemma select_no_nan (l : list float) :
  existsb (fun b => b) (map is_nan l) = false -> select l (map negb (map is_nan l)) = l.
Proof.
  induction l as [|a l IH]; simpl; [reflexivity|].
  rewrite orb_false_iff. intros [-> H]. simpl. now rewrite IH.
Qed.

(** The function on two arrays with as many elements, without the
    monad. *)
Lemma nan_allclose_arrays (l m : list float) :
  length l = length m ->
  nan_allclose (Array l) (Array m) rtol atol
  = Ok (if existsb (fun b => b) (zip_with xorb (map is_nan l) (map is_nan m))
        then false
        else if forallb (fun b => b) (map is_nan l) then true
        else forallb (fun b => b)
               (zip_with (within_tol rtol atol)
                  (select l (map negb (map is_nan l))) (select m (map negb (map is_nan m))))).
Proof.
  intros Hlen. unfold nan_allclose, isnan, neg_mask, any, all. simpl.
  rewrite !length_map, Hlen, Nat.eqb_refl. simpl.
  destruct (existsb _ (zip_with _ _ _)) eqn:Ed; [reflexivity|].
  destruct (forallb _ (map is_nan l)) eqn:Ea; [reflexivity|].
  apply masks_agree in Ed; [|assumption].
  pose proof (length_select_agree Ed) as Hsel.
  destruct (existsb _ (map is_nan l)) eqn:En.
  - simpl. unfold allclose. simpl. rewrite Hsel, Nat.eqb_refl. reflexivity.
  - simpl. unfold allclose. simpl. rewrite Hlen, Nat.eqb_refl. simpl.
    assert (Em : existsb (fun b => b) (map is_nan m) = false).
    { replace (map is_nan m) with (map is_nan l); [assumption|].
      clear -Ed. induction Ed as [|a b l m Hab _ IH]; simpl; congruence. }
    now rewrite (select_no_nan l En), (select_no_nan m Em).
Qed.

Lemma nan_allclose_elems (x y : nd float) :
  same_shape x y ->
  length (elems x) = length (elems y) /\
  nan_allclose x y rtol atol
  = nan_allclose (Array (elems x)) (Array (elems y)) rtol atol.
Proof.
  destruct x as [a|l], y as [b|m]; simpl; intros H; try contradiction.
  - split; [reflexivity|]. now destruct a, b.
  - now split.
Qed.

End NanCloseFacts.

(** ** [erf] *)

Section ErfFacts.

Import Erf.
Local Open Scope R_scope.

Lemma ltb0_true (z : R) : ltb0 z = true <-> z < 0.
Proof. unfold ltb0. destruct (Rlt_dec z 0); split; auto; discriminate. Qed.

Lemma ltb0_false (z : R) : ltb0 z = false <-> 0 <= z.
Proof.
  unfold ltb0. destruct (Rlt_dec z 0); split; auto; try discriminate; lra.
Qed.

(** For a small positive argument the exponential stays close to one. *)
Lemma exp_small (h : R) : 0 <= h -> h <= 1 / 2 -> 1 <= exp h <= 1 + 2 * h.
Proof.
  intros H0 H1. split.
  - pose proof (exp_ineq1_le h). lra.
  - pose proof (exp_ineq1_le (- h)) as Hm.
    pose proof (exp_pos h) as Hp.
    assert (E : exp h * exp (- h) = 1)
      by (rewrite <- exp_plus, Rplus_opp_r; apply exp_0).
    assert (Hb : exp h * (1 - h) <= 1) by (rewrite <- E; nra).
    nra.
Qed.

(** At zero the nine coefficients and the constant leave [3e-8] under
    the exponential. *)
Lemma erf_elem_zero : erf_elem 0 = 1 - exp (3 / 100000000).
Proof.
  unfold erf_elem.
  replace (ltb0 0) with false by (symmetry; apply ltb0_false; lra).
  rewrite Rabs_R0.
  replace (1 / (1 + 5 / 10 * 0)) with 1 by field.
  rewrite Rmult_1_l. do 2 f_equal. field.
Qed.

(** The value at zero is not zero itself: it lies just below. *)
Lemma erf_elem_zero_neg : erf_elem 0 < 0.
Proof.
  rewrite erf_elem_zero.
  assert (H : 1 + 3 / 100000000 < exp (3 / 100000000))
    by (apply exp_ineq1; lra).
  lra.
Qed.

Lemma erf_elem_zero_bound : Rabs (erf_elem 0) <= 6 / 100000000.
Proof.
  rewrite erf_elem_zero.
  destruct (exp_small (h := 3 / 100000000)) as [Hlo Hhi]; try lra.
  apply Rabs_le. lra.
Qed.

(** Away from zero the sign flip makes the function odd exactly. *)
Lemma erf_elem_odd (z : R) : z <> 0 -> erf_elem (- z) = - erf_elem z.
Proof.
  intros Hz. unfold erf_elem. rewrite Rabs_Ropp.
  replace (- - z * - z) with (- z * z) by ring.
  destruct (Rtotal_order z 0) as [Hneg|[Hzero|Hpos]]; [|contradiction|].
  - replace (ltb0 z) with true by (symmetry; apply ltb0_true; lra).
    replace (ltb0 (- z)) with false by (symmetry; apply ltb0_false; lra).
    now rewrite Ropp_involutive.
  - replace (ltb0 z) with false by (symmetry; apply ltb0_false; lra).
    replace (ltb0 (- z)) with true by (symmetry; apply ltb0_true; lra).
    reflexivity.
Qed.

Lemma erf_scalar (z : R) : erf (Scalar z) = Ok (Scalar (erf_elem z)).
Proof. reflexivity. Qed.

End ErfFacts.

(** C8: [erf(0)] is zero and [erf(-z)] is [-erf(z)] for every [z], each
    within the bound [1.2e-7] that the docstring gives for the
    approximation. *)
Theorem erf_zero_and_odd :
  (exists e0,
     Erf.erf (Scalar 0%R) = Ok (Scalar e0) /\
     (Rabs (e0 - 0) <= 12 / 100000000)%R)
  /\
  (forall z : R,
     exists a b,
       Erf.erf (Scalar z) = Ok (Scalar a) /\
       Erf.erf (Scalar (- z)%R) = Ok (Scalar b) /\
       (Rabs (b - - a) <= 12 / 100000000)%R).
Proof.
  pose proof erf_elem_zero_bound as H0.
  split.
  - exists (Erf.erf_elem 0). split; [apply erf_scalar|].
    rewrite Rminus_0_r. lra.
  - intros z. exists (Erf.erf_elem z), (Erf.erf_elem (- z)).
    split; [apply erf_scalar|]. split; [apply erf_scalar|].
    destruct (Req_dec z 0) as [->|Hz].
    + rewrite Ropp_0.
      replace (Erf.erf_elem 0 - - Erf.erf_elem 0)%R
        with (2 * Erf.erf_elem 0)%R by ring.
      rewrite Rabs_mult, (Rabs_pos_eq 2) by lra. lra.
    + rewrite erf_elem_odd by assumption.
      rewrite Rminus_diag, Rabs_R0. lra.
Qed.

(** ** [ensure_numeric] *)

(** With an element type requested that the array does not have, the
    array is converted into a new object and the given one is kept. *)
Lemma ensure_numeric_cast_allocates (r : Numeric.ref) (h : Numeric.heap)
    (a : Numeric.ndarray) (t : Numeric.dtype) :
  nth_error h r = Some a ->
  Numeric.dtype_eqb (Numeric.arr_dtype a) t = false ->
  exists b,
    Numeric.ensure_numeric (Numeric.PyObj (Numeric.Ndarray r)) (Some t) h
    = Ok (length h, h ++ [b]) /\
    Numeric.arr_shape b = Numeric.arr_shape a.
Proof.
  intros Hr Ht. unfold Numeric.ensure_numeric, Numeric.numpy_array, getitem.
  rewrite Hr. simpl. rewrite Ht. eexists. split; reflexivity.
Qed.

(** C9: for an input that is already an array object and no element
    type requested, [ensure_numeric] returns the very object it was
    given: the same address, in a heap left as it was, so that nothing
    was copied and the array at the address has the shape and the values
    it had. *)
Theorem ensure_numeric_ndarray_unchanged (r : Numeric.ref) (h : Numeric.heap) :
  exists r' h',
    Numeric.ensure_numeric (Numeric.PyObj (Numeric.Ndarray r)) None h
    = Ok (r', h') /\
    r' = r /\ h' = h /\ nth_error h' r' = nth_error h r.
Proof. exists r, h. repeat split. Qed.

(** * Further properties of the grid functions *)

(** ** The points as combinations of the axes *)

Lemma combine_app_same {A B} (l1 l2 : list A) (m1 m2 : list B) :
  length l1 = length m1 ->
  combine (l1 ++ l2) (m1 ++ m2) = combine l1 m1 ++ combine l2 m2.
Proof.
  revert m1. induction l1 as [|a l1 IH]; intros [|b m1] H; try discriminate.
  - reflexivity.
  - simpl. f_equal. apply IH. now injection H.
Qed.

Lemma combine_row (x : list Q) (b : Q) :
  combine (map (fun bj => 1 * bj) x) (map (fun bj => b * bj) (ones (length x)))
  = map (fun a => (a, b)) x.
Proof.
  induction x as [|a x IH]; [reflexivity|].
  simpl. now rewrite Qmult_one_l, Qmult_one_r, <- IH.
Qed.

Lemma kron_rows (x ry : list Q) :
  combine (kron (ones (length ry)) x) (kron ry (ones (length x)))
  = flat_map (fun b => map (fun a => (a, b)) x) ry.
Proof.
  induction ry as [|b ry IH]; [reflexivity|].
  change (kron (ones (length (b :: ry))) x)
    with (map (fun bj => 1 * bj) x ++ kron (ones (length ry)) x).
  change (kron (b :: ry) (ones (length x)))
    with (map (fun bj => b * bj) (ones (length x)) ++ kron ry (ones (length x))).
  rewrite combine_app_same by now rewrite !length_map, length_ones.
  now rewrite combine_row, IH.
Qed.

(** The result written as a comprehension: for every [b] of the
    reversed y-axis in turn, the points [(a, b)] for [a] along the
    x-axis. *)
Lemma axes_to_points_comprehension (x y : list Q) :
  axes_to_points x y = Ok (flat_map (fun b => map (fun a => (a, b)) x) (rev y)).
Proof.
  rewrite axes_to_points_eq, <- (length_rev y). now rewrite kron_rows.
Qed.

(** X1: the points are all the combinations of the two axes and nothing
    else: [(a, b)] is among them exactly when [a] is on the x-axis and
    [b] on the y-axis. *)
Theorem axes_to_points_all_combinations (x y : list Q) :
  exists P,
    axes_to_points x y = Ok P /\
    forall a b, In (a, b) P <-> In a x /\ In b y.
Proof.
  rewrite axes_to_points_comprehension. eexists. split; [reflexivity|].
  intros a b. rewrite in_flat_map. split.
  - intros (b' & Hb & Hab). apply in_map_iff in Hab as (a' & [= <- <-] & Ha).
    split; [assumption|]. now apply in_rev.
  - intros [Ha Hb]. exists b. split; [now apply in_rev in Hb|].
    apply in_map_iff. now exists a.
Qed.

(** ** When [grid_to_points] succeeds *)

Section GridToPointsSuccess.

Variable str : list Q -> string.

(** X2: [grid_to_points] returns a result exactly when each axis has two
    coordinates at least and its first is below its second; the array of
    values plays no part in it, its shape is never looked at. *)
Theorem grid_to_points_succeeds_iff (A : list (list Q)) (x y : list Q) :
  (exists res, grid_to_points str A x y = Ok res) <->
  (exists x0 x1 y0 y1,
     nth_error x 0 = Some x0 /\ nth_error x 1 = Some x1 /\
     nth_error y 0 = Some y0 /\ nth_error y 1 = Some y1 /\
     x0 < x1 /\ y0 < y1).
Proof.
  split.
  - intros [res H]. unfold grid_to_points in H.
    destruct x as [|x0 [|x1 xs]]; simpl in H; try discriminate.
    destruct (Qltb x0 x1) eqn:Bx; simpl in H; try discriminate.
    destruct y as [|y0 [|y1 ys]]; simpl in H; try discriminate.
    destruct (Qltb y0 y1) eqn:By; simpl in H; try discriminate.
    exists x0, x1, y0, y1. repeat split; try reflexivity; now apply Qltb_lt.
  - intros (x0 & x1 & y0 & y1 & Hx0 & Hx1 & Hy0 & Hy1 & Hx & Hy).
    rewrite (@grid_to_points_eq str A x y x0 x1 y0 y1) by assumption.
    rewrite axes_to_points_eq. simpl. eauto.
Qed.

End GridToPointsSuccess.

(** ** [geotransform_to_axes]: what it reads *)

Lemma geotransform_to_axes_eq (g0 g1 g2 g3 g4 g5 : Q) (nx ny : Z) :
  0 < g1 -> 0 < - g5 ->
  geotransform_to_axes [g0; g1; g2; g3; g4; g5] nx ny
  = Ok (linspace (g0 + g1 / 2) (g0 + inject_Z nx * g1 - g1 / 2) nx,
        linspace (g3 - inject_Z ny * - g5 + - g5 / 2) (g3 - - g5 / 2) ny).
Proof.
  intros Hdx Hdy. unfold geotransform_to_axes. simpl.
  apply Qltb_lt in Hdx, Hdy. now rewrite Hdx, Hdy.
Qed.

Lemma linspace_one (start stop : Q) : linspace start stop 1 = [start].
Proof. reflexivity. Qed.

(** X3: a geotransform shorter than six entries is refused with an
    index out of bounds, before any check on the resolution. *)
Theorem geotransform_to_axes_short_tuple (G : list Q) (nx ny : Z) :
  (length G < 6)%nat ->
  geotransform_to_axes G nx ny = Raise IndexError.
Proof.
  intros H. unfold geotransform_to_axes.
  destruct G as [|g0 [|g1 [|g2 [|g3 [|g4 [|g5 G]]]]]]; simpl in *;
    try reflexivity.
  lia.
Qed.

Lemma geotransform_to_axes_short_tuple_witness :
  geotransform_to_axes [100; 1; 0; 10; 0] 9 9 = Raise IndexError.
Proof. apply geotransform_to_axes_short_tuple. simpl. lia. Defined.

(** X4: only the entries 0, 1, 3 and 5 of the geotransform are read: two
    geotransforms that agree there give the same outcome, whatever their
    rotation terms and whatever follows the sixth entry. *)
Theorem geotransform_to_axes_ignores_rotation (G G' : list Q) (nx ny : Z) :
  nth_error G 0 = nth_error G' 0 ->
  nth_error G 1 = nth_error G' 1 ->
  nth_error G 3 = nth_error G' 3 ->
  nth_error G 5 = nth_error G' 5 ->
  geotransform_to_axes G nx ny = geotransform_to_axes G' nx ny.
Proof.
  intros H0 H1 H3 H5. unfold geotransform_to_axes, getitem.
  now rewrite H0, H1, H3, H5.
Qed.

Lemma geotransform_to_axes_ignores_rotation_witness :
  geotransform_to_axes [100; 1; 0; 10; 0; -1] 9 9
  = geotransform_to_axes [100; 1; 7; 10; 3; -1; 42] 9 9.
Proof. apply geotransform_to_axes_ignores_rotation; reflexivity. Defined.

(** ** The axes of a geotransform handed to [grid_to_points] *)

Section GeotransformThenGrid.

Variable str : list Q -> string.

(** X7: a raster of a single column or a single row is never converted:
    the axis [geotransform_to_axes] makes for it has one coordinate, and
    [grid_to_points] returns no result on such axes; for a single
    column the failure is an index out of bounds. *)
Theorem grid_to_points_of_thin_raster (A : list (list Q))
    (g0 g1 g2 g3 g4 g5 : Q) (nx ny : Z) :
  0 < g1 -> 0 < - g5 -> (0 < nx)%Z -> (0 < ny)%Z ->
  nx = 1%Z \/ ny = 1%Z ->
  exists x y,
    geotransform_to_axes [g0; g1; g2; g3; g4; g5] nx ny = Ok (x, y) /\
    (nx = 1%Z -> grid_to_points str A x y = Raise IndexError) /\
    (forall res, grid_to_points str A x y <> Ok res).
Proof.
  intros Hdx Hdy Hnx Hny Hthin. rewrite geotransform_to_axes_eq by assumption.
  eexists. eexists. split; [reflexivity|]. split.
  - intros ->. rewrite linspace_one. reflexivity.
  - intros res. destruct Hthin as [-> | ->]; rewrite linspace_one.
    + discriminate.
    + unfold grid_to_points.
      destruct (linspace _ _ nx) as [|x0 [|x1 xs]]; simpl; try discriminate.
      destruct (Qltb x0 x1); simpl; discriminate.
Qed.

End GeotransformThenGrid.

Lemma grid_to_points_of_thin_raster_witness :
  exists x y,
    geotransform_to_axes [100; 1; 0; 10; 0; -1] 3 1 = Ok (x, y) /\
    forall res,
      grid_to_points (fun _ => EmptyString) [[1; 2; 3]] x y <> Ok res.
Proof.
  destruct (@grid_to_points_of_thin_raster (fun _ => EmptyString)
              [[1; 2; 3]] 100 1 0 10 0 (-1) 3%Z 1%Z)
    as (x & y & Hrun & _ & Hno); try reflexivity; [now right|].
  exists x, y. split; assumption.
Defined.

(** * Further properties of [nan_allclose] *)



Lemma zip_with_swap {A B C} (f : A -> B -> C) (g : B -> A -> C)
    (l : list A) (m : list B) :
  (forall a b, f a b = g b a) -> zip_with f l m = zip_with g m l.
Proof.
  intros H. revert m. induction l as [|a l IH]; intros [|b m]; simpl; auto.
  now rewrite H, IH.
Qed.

Lemma masks_equal (l m : list NanClose.float) :
  Forall2 (fun a b => NanClose.is_nan a = NanClose.is_nan b) l m ->
  map NanClose.is_nan l = map NanClose.is_nan m.
Proof. induction 1; simpl; congruence. Qed.

Section ToleranceFacts.

Import NanClose.



Lemma within_tol_absolute_sym (atol a b : float) :
  within_tol (Fin 0) atol a b = within_tol (Fin 0) atol b a.
Proof.
  destruct a as [|p], b as [|q], atol as [|t]; try reflexivity.
  change (Qle_bool (Qabs (p - q)) (t + 0 * Qabs q)
          = Qle_bool (Qabs (q - p)) (t + 0 * Qabs p)).
  apply eq_iff_eq_true.
  rewrite !Qle_bool_iff, (Qabs_Qminus p q).
  assert (E : t + 0 * Qabs q == t + 0 * Qabs p) by ring.
  now rewrite E.
Qed.

End ToleranceFacts.





(** The relative tolerance is scaled by the second operand alone, so
    the order of the operands can matter: 1 is close to 2 within one
    half of 2, 2 is not close to 1 within one half of 1. *)
Lemma nan_allclose_order_matters :
  NanClose.nan_allclose (Scalar (NanClose.Fin 1)) (Scalar (NanClose.Fin 2))
    (NanClose.Fin (1 # 2)) (NanClose.Fin 0) = Ok true /\
  NanClose.nan_allclose (Scalar (NanClose.Fin 2)) (Scalar (NanClose.Fin 1))
    (NanClose.Fin (1 # 2)) (NanClose.Fin 0) = Ok false.
Proof. split; reflexivity. Qed.

(** X10: with no relative tolerance the comparison does not depend on
    the order of its operands. *)
Theorem nan_allclose_absolute_symmetric
    (x y : nd NanClose.float) (atol : NanClose.float) :
  same_shape x y ->
  NanClose.nan_allclose x y (NanClose.Fin 0) atol
  = NanClose.nan_allclose y x (NanClose.Fin 0) atol.
Proof.
  intros Hshape.
  assert (Hshape' : same_shape y x)
    by (destruct x, y; simpl in *; auto).
  destruct (nan_allclose_elems (NanClose.Fin 0) atol x y Hshape) as [Hlen ->].
  destruct (nan_allclose_elems (NanClose.Fin 0) atol y x Hshape') as [_ ->].
  rewrite (nan_allclose_arrays _ _ _ _ Hlen).
  rewrite (nan_allclose_arrays _ _ _ _ (eq_sym Hlen)).
  set (l := elems x) in *. set (m := elems y) in *.
  rewrite (zip_with_swap xorb xorb (map NanClose.is_nan l) (map NanClose.is_nan m))
    by apply xorb_comm.
  destruct (existsb _ (zip_with _ _ _)) eqn:Ed; [reflexivity|].
  apply (masks_agree m l (eq_sym Hlen)) in Ed.
  rewrite (masks_equal Ed).
  destruct (forallb _ (map NanClose.is_nan l)); [reflexivity|].
  f_equal. f_equal. apply zip_with_swap. intros a b.
  apply within_tol_absolute_sym.
Qed.

Lemma nan_allclose_absolute_symmetric_witness :
  NanClose.nan_allclose
    (Array [NanClose.Fin 1; NanClose.NaN]) (Array [NanClose.Fin 2; NanClose.NaN])
    (NanClose.Fin 0) (NanClose.Fin 1)
  = NanClose.nan_allclose
      (Array [NanClose.Fin 2; NanClose.NaN]) (Array [NanClose.Fin 1; NanClose.NaN])
      (NanClose.Fin 0) (NanClose.Fin 1).
Proof. apply nan_allclose_absolute_symmetric. reflexivity. Defined.

(** * Further properties of [ensure_numeric] *)

Section EnsureNumericFacts.

Import Numeric.

Lemma dtype_eqb_eq (a b : dtype) : dtype_eqb a b = true <-> a = b.
Proof. destruct a, b; simpl; split; congruence. Qed.

Lemma nth_error_alloc (a : ndarray) (h : heap) :
  nth_error (snd (alloc a h)) (fst (alloc a h)) = Some a.
Proof. simpl. now rewrite nth_error_app2, Nat.sub_diag by lia. Qed.

Lemma nth_error_alloc_old (a b : ndarray) (h : heap) i :
  nth_error h i = Some b -> nth_error (snd (alloc a h)) i = Some b.
Proof.
  intros H. simpl. rewrite nth_error_app1; [assumption|].
  apply nth_error_Some. congruence.
Qed.

End EnsureNumericFacts.

(** X11: [ensure_numeric] has no effect on the arrays there are: every
    array of the heap is found unchanged at its address after the call,
    and the call makes one new object at most. *)
Theorem ensure_numeric_keeps_arrays (A : Numeric.pyobj)
    (t : option Numeric.dtype) (h h' : Numeric.heap) (r : Numeric.ref) :
  Numeric.ensure_numeric A t h = Ok (r, h') ->
  (forall i a, nth_error h i = Some a -> nth_error h' i = Some a) /\
  (length h' <= S (length h))%nat.
Proof.
  assert (Hnew : forall a, Ok (Numeric.alloc a h) = Ok (r, h') ->
            (forall i b, nth_error h i = Some b -> nth_error h' i = Some b) /\
            (length h' <= S (length h))%nat).
  { intros a [= _ <-]. split.
    - intros i b Hb. now apply (nth_error_alloc_old a).
    - rewrite length_app. simpl. lia. }
  assert (Hsame : Ok (r, h) = Ok (r, h') ->
            (forall i b, nth_error h i = Some b -> nth_error h' i = Some b) /\
            (length h' <= S (length h))%nat).
  { intros [= <-]. split; auto. }
  unfold Numeric.ensure_numeric, Numeric.numpy_array.
  destruct A as [s|[r0|n|l]]; try discriminate; destruct t as [t|]; simpl;
    try apply Hnew.
  - unfold getitem. destruct (nth_error h r0) as [a|]; simpl; [|discriminate].
    destruct (Numeric.dtype_eqb _ _); [|apply Hnew].
    intros [= <- <-]. split; auto.
  - intros [= <- <-]. split; auto.
Qed.

Lemma ensure_numeric_keeps_arrays_witness :
  nth_error [Numeric.mk_ndarray Numeric.float_ [1%nat] [2.5];
             Numeric.mk_ndarray Numeric.int_ [1%nat] [2]] 0
  = Some (Numeric.mk_ndarray Numeric.float_ [1%nat] [2.5]).
Proof.
  apply (@ensure_numeric_keeps_arrays
           (Numeric.PyObj (Numeric.Ndarray 0%nat)) (Some Numeric.int_)
           [Numeric.mk_ndarray Numeric.float_ [1%nat] [2.5]]
           [Numeric.mk_ndarray Numeric.float_ [1%nat] [2.5];
            Numeric.mk_ndarray Numeric.int_ [1%nat] [2]] 1%nat);
    reflexivity.
Defined.

(** X12: with an element type requested, the array handed back has that
    element type, whether it is the given object or a new one. *)
Theorem ensure_numeric_typecode (A : Numeric.pyobj) (t : Numeric.dtype)
    (h h' : Numeric.heap) (r : Numeric.ref) :
  Numeric.ensure_numeric A (Some t) h = Ok (r, h') ->
  exists a, nth_error h' r = Some a /\ Numeric.arr_dtype a = t.
Proof.
  assert (Hnew : forall a, Numeric.arr_dtype a = t ->
            Ok (Numeric.alloc a h) = Ok (r, h') ->
            exists b, nth_error h' r = Some b /\ Numeric.arr_dtype b = t).
  { intros a Ha [= <- <-]. exists a. split; [|assumption].
    apply (nth_error_alloc a h). }
  unfold Numeric.ensure_numeric, Numeric.numpy_array.
  destruct A as [s|[r0|n|l]]; try discriminate; simpl;
    try (apply Hnew; reflexivity).
  unfold getitem. destruct (nth_error h r0) as [a|] eqn:Ea; simpl;
    [|discriminate].
  destruct (Numeric.dtype_eqb _ _) eqn:Et; [|apply Hnew; reflexivity].
  intros [= <- <-]. exists a. split; [assumption|].
  now apply dtype_eqb_eq.
Qed.

Lemma ensure_numeric_typecode_witness :
  exists a,
    nth_error [Numeric.mk_ndarray Numeric.float_ [1%nat] [2.5];
               Numeric.mk_ndarray Numeric.int_ [1%nat] [2]] 1
    = Some a /\ Numeric.arr_dtype a = Numeric.int_.
Proof.
  apply (@ensure_numeric_typecode
           (Numeric.PyObj (Numeric.Ndarray 0%nat)) Numeric.int_
           [Numeric.mk_ndarray Numeric.float_ [1%nat] [2.5]]).
  reflexivity.
Defined.


(** * Further properties of [erf] and of the distribution functions *)

Section ErfBounds.

Import Erf.
Local Open Scope R_scope.

Lemma scale_le (t u hi : R) : 0 <= t <= 1 -> u <= hi -> 0 <= hi -> t * u <= hi.
Proof. intros Ht Hu Hhi. nra. Qed.

(** The polynomial under the exponential, in its Horner form, bounded
    from above on the unit interval, one bracket after the other. *)
Lemma horner_le (t : R) :
  0 <= t <= 1 ->
  t * (100002368 / 100000000 +
  t * (37409196 / 100000000 +
  t * (9678418 / 100000000 +
  t * (- (18628806 / 100000000) +
  t * (27886807 / 100000000 +
  t * (- (113520398 / 100000000) +
  t * (148851587 / 100000000 +
  t * (- (82215223 / 100000000) +
  t * (17087277 / 100000000))))))))) <= 19171 / 10000.
Proof.
  intros Ht.
  set (u8 := - (82215223 / 100000000) + t * (17087277 / 100000000)).
  assert (B8 : u8 <= 0) by (unfold u8; lra).
  set (u7 := 148851587 / 100000000 + t * u8).
  assert (B7 : u7 <= 14886 / 10000).
  { pose proof (@scale_le t u8 0 Ht B8). unfold u7. lra. }
  set (u6 := - (113520398 / 100000000) + t * u7).
  assert (B6 : u6 <= 3534 / 10000).
  { pose proof (@scale_le t u7 _ Ht B7). unfold u6. lra. }
  set (u5 := 27886807 / 100000000 + t * u6).
  assert (B5 : u5 <= 6323 / 10000).
  { pose proof (@scale_le t u6 _ Ht B6). unfold u5. lra. }
  set (u4 := - (18628806 / 100000000) + t * u5).
  assert (B4 : u4 <= 4461 / 10000).
  { pose proof (@scale_le t u5 _ Ht B5). unfold u4. lra. }
  set (u3 := 9678418 / 100000000 + t * u4).
  assert (B3 : u3 <= 5429 / 10000).
  { pose proof (@scale_le t u4 _ Ht B4). unfold u3. lra. }
  set (u2 := 37409196 / 100000000 + t * u3).
  assert (B2 : u2 <= 9170 / 10000).
  { pose proof (@scale_le t u3 _ Ht B3). unfold u2. lra. }
  set (u1 := 100002368 / 100000000 + t * u2).
  assert (B1 : u1 <= 19171 / 10000).
  { pose proof (@scale_le t u2 _ Ht B2). unfold u1. lra. }
  apply scale_le; [assumption | assumption | lra].
Qed.

Lemma exp_double (h b : R) : exp h <= b -> exp (2 * h) <= b * b.
Proof.
  intros H. pose proof (exp_pos h) as Hp.
  replace (2 * h) with (h + h) by ring. rewrite exp_plus. nra.
Qed.

Lemma exp_below_two (e : R) : e <= 66 / 100 -> exp e < 2.
Proof.
  intros He.
  assert (H0 : exp (825 / 10000) <= 400 / 367).
  { pose proof (exp_ineq1_le (- (825 / 10000))) as Hm.
    pose proof (exp_pos (825 / 10000)) as Hp.
    assert (E : exp (825 / 10000) * exp (- (825 / 10000)) = 1)
      by (rewrite <- exp_plus, Rplus_opp_r; apply exp_0).
    assert (Hb : exp (825 / 10000) * (1 - 825 / 10000) <= 1)
      by (rewrite <- E; nra).
    lra. }
  apply exp_double in H0. apply exp_double in H0. apply exp_double in H0.
  replace (2 * (2 * (2 * (825 / 10000)))) with (66 / 100) in H0 by field.
  assert (Hle : exp e <= exp (66 / 100)).
  { destruct He as [He | ->]; [|lra]. left. now apply exp_increasing. }
  lra.
Qed.

(** The approximation stays strictly between -1 and 1. *)
Lemma erf_elem_range (z : R) : -1 < erf_elem z < 1.
Proof.
  unfold erf_elem.
  set (t := 1 / (1 + 5 / 10 * Rabs z)).
  pose proof (Rabs_pos z) as Hz.
  assert (Ht : 0 < t <= 1).
  { assert (Hd : t * (1 + 5 / 10 * Rabs z) = 1) by (unfold t; field; lra).
    assert (0 < t) by (unfold t; apply Rdiv_lt_0_compat; lra).
    split; [assumption | nra]. }
  pose proof (@horner_le t) as Hp.
  match goal with |- context [exp ?e] => set (E := e) end.
  assert (HE : E <= 66 / 100).
  { assert (Hsq : - z * z <= 0) by nra. unfold E. lra. }
  pose proof (exp_below_two HE) as Hlt. pose proof (exp_pos E) as Hpos.
  assert (0 < t * exp E) by (apply Rmult_lt_0_compat; lra).
  assert (t * exp E < 2) by nra.
  destruct (ltb0 z); lra.
Qed.

End ErfBounds.

Section CdfFacts.

Import Erf Cdf.
Local Open Scope R_scope.

Lemma erf_array (l : list R) : erf (Array l) = Ok (Array (map erf_elem l)).
Proof. reflexivity. Qed.

(** The value of [normal_cdf] at one element. *)
Lemma normal_cdf_eq (x : nd R) (mu sigma : R) :
  normal_cdf x mu sigma
  = Ok (nd_map
          (fun xi => (1 + erf_elem ((xi - mu) / (sigma * sqrt 2))) / 2) x).
Proof.
  destruct x as [a|l]; unfold normal_cdf; simpl; [reflexivity|].
  now rewrite !map_map.
Qed.

Lemma same_shape_nd_map {A B} (f : A -> B) (x : nd A) :
  same_shape x (nd_map f x).
Proof. destruct x; simpl; [exact I | now rewrite length_map]. Qed.

Lemma elems_nd_map {A B} (f : A -> B) (x : nd A) :
  elems (nd_map f x) = map f (elems x).
Proof. now destruct x. Qed.

End CdfFacts.

(** X15: [erf] answers a scalar with a scalar and an array with an array
    of as many elements, each the value the function has on that element
    as a scalar, and every value lies between -1 and 1. *)
Theorem erf_shape_and_range (z : nd R) :
  exists r,
    Erf.erf z = Ok r /\
    same_shape z r /\
    (forall i a, nth_error (elems z) i = Some a ->
       exists v, nth_error (elems r) i = Some v /\
                 Erf.erf (Scalar a) = Ok (Scalar v)) /\
    (forall v, In v (elems r) -> (-1 <= v <= 1)%R).
Proof.
  exists (nd_map Erf.erf_elem z). split; [now destruct z|].
  split; [apply same_shape_nd_map|]. rewrite elems_nd_map. split.
  - intros i a Ha. exists (Erf.erf_elem a). split; [|reflexivity].
    rewrite nth_error_map, Ha. reflexivity.
  - intros v Hv. apply in_map_iff in Hv as (a & <- & _).
    pose proof (erf_elem_range a). lra.
Qed.



(** X18: at the mean [normal_cdf] is not one half: the value lies below
    it, by [1.5e-8] at least and by [3e-8] at most. *)
Theorem normal_cdf_at_mean (mu sigma : R) :
  sigma <> 0%R ->
  exists a,
    Cdf.normal_cdf (Scalar mu) mu sigma = Ok (Scalar a) /\
    (15 / 1000000000 <= 1 / 2 - a <= 3 / 100000000)%R.
Proof.
  intros Hs. rewrite normal_cdf_eq. eexists. split; [reflexivity|].
  cbv beta.
  replace ((mu - mu) / (sigma * sqrt 2))%R with 0%R
    by (field; repeat split; first [apply sqrt2_neq_0 | assumption]).
  rewrite erf_elem_zero.
  destruct (exp_small (h := (3 / 100000000)%R)) as [_ Hhi]; try lra.
  pose proof (exp_ineq1_le (3 / 100000000)%R). lra.
Qed.

Lemma normal_cdf_at_mean_witness :
  exists a,
    Cdf.normal_cdf (Scalar 0%R) 0 1 = Ok (Scalar a) /\
    (15 / 1000000000 <= 1 / 2 - a <= 3 / 100000000)%R.
Proof. apply normal_cdf_at_mean. apply R1_neq_R0. Defined.

(** ** The sign of [erf] next to zero *)

Section ErfNearZero.

Import Erf.
Local Open Scope R_scope.

Lemma scale_ge_neg (t u lo : R) :
  0 <= t <= 1 -> lo <= u -> lo <= 0 -> lo <= t * u.
Proof. intros Ht Hu Hlo. nra. Qed.

Lemma scale_ge_pos (s t u lo : R) :
  0 <= s <= t -> 0 <= lo <= u -> s * lo <= t * u.
Proof. intros Hs Hu. nra. Qed.

(** The polynomial under the exponential bounded from below next to
    [t = 1], where it is worth [1.26551226]. *)
Lemma horner_ge_near_one (t : R) :
  1 - 5 / 1000000000 <= t <= 1 ->
  1265512247 / 1000000000 <=
  t * (100002368 / 100000000 +
  t * (37409196 / 100000000 +
  t * (9678418 / 100000000 +
  t * (- (18628806 / 100000000) +
  t * (27886807 / 100000000 +
  t * (- (113520398 / 100000000) +
  t * (148851587 / 100000000 +
  t * (- (82215223 / 100000000) +
  t * (17087277 / 100000000))))))))).
Proof.
  intros Ht.
  assert (Ht' : 0 <= t <= 1) by lra.
  assert (Hs : 0 <= 1 - 5 / 1000000000 <= t) by lra.
  set (u8 := - (82215223 / 100000000) + t * (17087277 / 100000000)).
  assert (B8 : - (651279460855 / 1000000000000) <= u8) by (unfold u8; lra).
  set (u7 := 148851587 / 100000000 + t * u8).
  assert (B7 : 837236409145 / 1000000000000 <= u7).
  { pose proof (@scale_ge_neg t u8 _ Ht' B8). unfold u7. lra. }
  set (u6 := - (113520398 / 100000000) + t * u7).
  assert (B6 : - (297967575042 / 1000000000000) <= u6).
  { pose proof (@scale_ge_pos _ t u7 (837236409145 / 1000000000000) Hs).
    unfold u6. lra. }
  set (u5 := 27886807 / 100000000 + t * u6).
  assert (B5 : - (19099505042 / 1000000000000) <= u5).
  { pose proof (@scale_ge_neg t u6 _ Ht' B6). unfold u5. lra. }
  set (u4 := - (18628806 / 100000000) + t * u5).
  assert (B4 : - (205387565042 / 1000000000000) <= u4).
  { pose proof (@scale_ge_neg t u5 _ Ht' B5). unfold u4. lra. }
  set (u3 := 9678418 / 100000000 + t * u4).
  assert (B3 : - (108603385042 / 1000000000000) <= u3).
  { pose proof (@scale_ge_neg t u4 _ Ht' B4). unfold u3. lra. }
  set (u2 := 37409196 / 100000000 + t * u3).
  assert (B2 : 265488574958 / 1000000000000 <= u2).
  { pose proof (@scale_ge_neg t u3 _ Ht' B3). unfold u2. lra. }
  set (u1 := 100002368 / 100000000 + t * u2).
  assert (B1 : 1265512253630 / 1000000000000 <= u1).
  { pose proof (@scale_ge_pos _ t u2 (265488574958 / 1000000000000) Hs).
    unfold u1. lra. }
  pose proof (@scale_ge_pos _ t u1 (1265512253630 / 1000000000000) Hs).
  lra.
Qed.

(** Just above zero the approximation is negative. *)
Lemma erf_elem_negative_above_zero (z : R) :
  0 < z <= 1 / 100000000 -> erf_elem z < 0.
Proof.
  intros Hz. unfold erf_elem.
  replace (ltb0 z) with false by (symmetry; apply ltb0_false; lra).
  rewrite (Rabs_pos_eq z) by lra.
  set (t := 1 / (1 + 5 / 10 * z)).
  assert (Htd : t * (1 + 5 / 10 * z) = 1) by (unfold t; field; lra).
  assert (Ht0 : 0 < t) by (unfold t; apply Rdiv_lt_0_compat; lra).
  assert (Ht1 : t <= 1) by nra.
  assert (Ht : 1 - 5 / 1000000000 <= t <= 1) by (split; nra).
  pose proof (@horner_ge_near_one t Ht) as Hp.
  match goal with |- context [exp ?e] => set (E := e) end.
  assert (HE : 16 / 1000000000 <= E).
  { assert (Hsq : z * z <= 1 / 100000000 * (1 / 100000000)) by nra.
    replace (- z * z) with (- (z * z)) in * by ring. unfold E. lra. }
  pose proof (exp_ineq1_le E) as Hexp.
  assert (1 < t * exp E) by nra.
  lra.
Qed.

Lemma scaled_small (d sigma : R) :
  0 < sigma -> 0 < d <= sigma / 100000000 ->
  0 < d / (sigma * sqrt 2) <= 1 / 100000000.
Proof.
  intros Hs Hd.
  assert (H2 : 1 <= sqrt 2)
    by (rewrite <- sqrt_1 at 1; apply sqrt_le_1_alt; lra).
  assert (Hden : 0 < sigma * sqrt 2) by nra.
  split.
  - apply Rdiv_lt_0_compat; lra.
  - apply Rmult_le_reg_r with (sigma * sqrt 2); [assumption|].
    replace (d / (sigma * sqrt 2) * (sigma * sqrt 2)) with d by (field; lra).
    nra.
Qed.

End ErfNearZero.

(** X22: next to zero [erf] has the wrong sign: it is negative on
    arguments between 0 and [1e-8] and positive on their opposites. *)
Theorem erf_sign_near_zero (z : R) :
  (0 < z <= 1 / 100000000)%R ->
  exists a b,
    Erf.erf (Scalar z) = Ok (Scalar a) /\
    Erf.erf (Scalar (- z)%R) = Ok (Scalar b) /\
    (a < 0)%R /\ (0 < b)%R.
Proof.
  intros Hz. exists (Erf.erf_elem z), (Erf.erf_elem (- z)).
  split; [reflexivity|]. split; [reflexivity|].
  pose proof (erf_elem_negative_above_zero Hz).
  rewrite erf_elem_odd by lra. lra.
Qed.

Lemma erf_sign_near_zero_witness :
  exists a b,
    Erf.erf (Scalar (1 / 1000000000)%R) = Ok (Scalar a) /\
    Erf.erf (Scalar (- (1 / 1000000000))%R) = Ok (Scalar b) /\
    (a < 0)%R /\ (0 < b)%R.
Proof. apply erf_sign_near_zero. lra. Defined.

(** X23: the standard [normal_cdf], of mean 0 and deviation 1, is not
    monotone across zero: for [0 < x <= 1e-8] the value at [x] is below
    one half and the value at [-x] is above it. *)
Theorem normal_cdf_dips_at_mean (x : R) :
  (0 < x <= 1 / 100000000)%R ->
  exists a b,
    Cdf.normal_cdf (Scalar x) 0 1 = Ok (Scalar a) /\
    Cdf.normal_cdf (Scalar (- x)%R) 0 1 = Ok (Scalar b) /\
    (a < 1 / 2 < b)%R.
Proof.
  intros Hx. rewrite !normal_cdf_eq. eexists. eexists.
  split; [reflexivity|]. split; [reflexivity|]. cbv beta.
  pose proof sqrt2_neq_0 as H2.
  replace ((x - 0) / (1 * sqrt 2))%R with (x / (1 * sqrt 2))%R
    by (field; assumption).
  replace ((- x - 0) / (1 * sqrt 2))%R with (- (x / (1 * sqrt 2)))%R
    by (field; assumption).
  assert (Harg : (0 < x / (1 * sqrt 2) <= 1 / 100000000)%R)
    by (apply scaled_small; lra).
  pose proof (erf_elem_negative_above_zero Harg) as Hneg.
  rewrite erf_elem_odd by lra. lra.
Qed.

Lemma normal_cdf_dips_at_mean_witness :
  exists a b,
    Cdf.normal_cdf (Scalar (1 / 1000000000)%R) 0 1 = Ok (Scalar a) /\
    Cdf.normal_cdf (Scalar (- (1 / 1000000000))%R) 0 1 = Ok (Scalar b) /\
    (a < 1 / 2 < b)%R.
Proof. apply normal_cdf_dips_at_mean. lra. Defined.

(** * Double precision: [nan_allclose] *)

(** ** Masks and selections, for any element type *)

Section Masked.

Variable T : Type.
Variable nanb : T -> bool.
Variable test : T -> T -> bool.

Lemma masked_agree (l m : list T) :
  length l = length m ->
  (existsb (fun b => b) (zip_with xorb (map nanb l) (map nanb m)) = false
   <-> Forall2 (fun a b => nanb a = nanb b) l m).
Proof.
  revert m. induction l as [|a l IH]; intros [|b m] Hlen; try discriminate.
  - simpl. split; [constructor | reflexivity].
  - injection Hlen as Hlen. simpl. rewrite orb_false_iff, (IH m Hlen). split.
    + intros [Hab H]. constructor; [|assumption].
      now destruct (nanb a), (nanb b).
    + intros H. inversion H as [|? ? ? ? Hab H']; subst. split; [|assumption].
      rewrite Hab. apply xorb_nilpotent.
Qed.

Lemma masked_equal (l m : list T) :
  Forall2 (fun a b => nanb a = nanb b) l m -> map nanb l = map nanb m.
Proof. induction 1; simpl; congruence. Qed.

Lemma masked_length (l m : list T) :
  Forall2 (fun a b => nanb a = nanb b) l m ->
  length (select l (map negb (map nanb l)))
  = length (select m (map negb (map nanb m))).
Proof.
  induction 1 as [|a b l m Hab _ IH]; [reflexivity|].
  simpl. rewrite <- Hab. destruct (nanb a); simpl; now rewrite IH.
Qed.

Lemma masked_pointwise (l m : list T) :
  Forall2 (fun a b => nanb a = nanb b) l m ->
  (forallb (fun b => b)
     (zip_with test (select l (map negb (map nanb l)))
        (select m (map negb (map nanb m)))) = true
   <-> Forall2 (fun a b => nanb a = false -> nanb b = false ->
                           test a b = true) l m).
Proof.
  induction 1 as [|a b l m Hab _ IH].
  - simpl. split; [constructor | reflexivity].
  - simpl. rewrite <- Hab. destruct (nanb a) eqn:Ea; simpl.
    + rewrite IH. split.
      * intros H. constructor; [intros E; congruence | assumption].
      * intros H. now inversion H.
    + rewrite andb_true_iff, IH. split.
      * intros [Hw H]. constructor; auto.
      * intros H. inversion H; subst. split; auto.
Qed.

Lemma masked_nothing (l : list T) :
  existsb (fun b => b) (map nanb l) = false ->
  select l (map negb (map nanb l)) = l.
Proof.
  induction l as [|a l IH]; simpl; [reflexivity|].
  rewrite orb_false_iff. intros [-> H]. simpl. now rewrite IH.
Qed.

Lemma length_select_same (l m : list T) (mask : list bool) :
  length l = length m -> length (select l mask) = length (select m mask).
Proof.
  revert m mask. induction l as [|a l IH]; intros [|b m] [|c mask] H;
    try discriminate; try reflexivity.
  injection H as H. simpl. destruct c; simpl; now rewrite (IH m mask H).
Qed.

End Masked.

(** ** The branch of [allclose] on the infinities *)

Section Infinities.

Variable T : Type.
Variable inf : T -> bool.
Variable eq wt : T -> T -> bool.

(** What the three passes of [allclose] amount to on one pair. *)
Lemma infinities_pairwise (l m : list T) :
  length l = length m ->
  forallb (fun b => b) (zip_with Bool.eqb (map inf l) (map inf m))
  && forallb (fun b => b)
       (zip_with eq (select l (map inf l)) (select m (map inf l)))
  && forallb (fun b => b)
       (zip_with wt (select l (map negb (map inf l)))
          (select m (map negb (map inf l))))
  = forallb (fun b => b)
      (zip_with
         (fun a b => Bool.eqb (inf a) (inf b)
                     && (if inf a then eq a b else wt a b)) l m).
Proof.
  revert m. induction l as [|a l IH]; intros [|b m] Hlen; try discriminate.
  - reflexivity.
  - injection Hlen as Hlen. specialize (IH m Hlen). simpl.
    rewrite <- IH. destruct (inf a), (inf b); simpl; btauto.
Qed.

Lemma no_infinities_pairwise (l m : list T) :
  existsb (fun b => b) (map inf l) || existsb (fun b => b) (map inf m) = false ->
  forallb (fun b => b) (zip_with wt l m)
  = forallb (fun b => b)
      (zip_with
         (fun a b => Bool.eqb (inf a) (inf b)
                     && (if inf a then eq a b else wt a b)) l m).
Proof.
  revert m. induction l as [|a l IH]; intros [|b m]; try reflexivity.
  simpl. rewrite !orb_false_iff. intros [[Ha Hl] [Hb Hm]].
  rewrite Ha, Hb. simpl. f_equal. apply IH. now rewrite Hl, Hm.
Qed.

End Infinities.

(** ** [nan_allclose] on doubles *)

Section Binary64Close.

Import PrimFloat.

Variables rtol atol : float.

(** What is asked of one pair of numbers: two infinities that are
    equal, or no infinity and the tolerance test. *)
Lemma allclose_pairwise (x y : nd float) :
  same_shape x y ->
  Binary64.allclose x y rtol atol
  = Ok (forallb (fun b => b)
          (zip_with
             (fun a b => Bool.eqb (is_infinity a) (is_infinity b)
                         && (if is_infinity a then eqb a b
                             else Binary64.within_tol rtol atol a b))
             (elems x) (elems y))).
Proof.
  intros Hshape.
  assert (Hlen : length (elems x) = length (elems y))
    by (destruct x, y; simpl in *; tauto).
  change (Binary64.allclose x y rtol atol)
    with (Binary64.allclose (Array (elems x)) (Array (elems y)) rtol atol).
  set (l := elems x) in *. set (m := elems y) in *.
  unfold Binary64.allclose, Binary64.atleast_1d, Binary64.isinf, any, all.
  simpl.
  destruct (existsb _ (map is_infinity l) || existsb _ (map is_infinity m))
    eqn:Einf.
  - rewrite <- (infinities_pairwise is_infinity eqb
                  (Binary64.within_tol rtol atol) l m Hlen).
    simpl. rewrite !length_map, Hlen, Nat.eqb_refl. simpl.
    destruct (forallb _ (zip_with Bool.eqb _ _)); simpl; [|reflexivity].
    rewrite (length_select_same l m (map is_infinity l) Hlen), Nat.eqb_refl.
    simpl.
    destruct (forallb _ (zip_with eqb _ _)); simpl; [|reflexivity].
    now rewrite (length_select_same l m _ Hlen), Nat.eqb_refl.
  - simpl. rewrite Hlen, Nat.eqb_refl. simpl.
    now rewrite (no_infinities_pairwise is_infinity eqb
                   (Binary64.within_tol rtol atol) l m Einf).
Qed.

(** The function on two operands of the same shape, without the
    monad. *)
Lemma nan_allclose_binary64 (x y : nd float) :
  same_shape x y ->
  Binary64.nan_allclose x y rtol atol
  = Ok (if existsb (fun b => b)
             (zip_with xorb (map is_nan (elems x)) (map is_nan (elems y)))
        then false
        else if forallb (fun b => b) (map is_nan (elems x)) then true
        else forallb (fun b => b)
               (zip_with
                  (fun a b => Bool.eqb (is_infinity a) (is_infinity b)
                              && (if is_infinity a then eqb a b
                                  else Binary64.within_tol rtol atol a b))
                  (select (elems x) (map negb (map is_nan (elems x))))
                  (select (elems y) (map negb (map is_nan (elems y)))))).
Proof.
  intros Hshape. destruct x as [a|l], y as [b|m]; simpl in Hshape;
    try contradiction.
  - unfold Binary64.nan_allclose, Binary64.isnan, any, all. simpl.
    destruct (is_nan a) eqn:Ea, (is_nan b) eqn:Eb; simpl; try reflexivity.
    now rewrite allclose_pairwise.
  - unfold Binary64.nan_allclose, Binary64.isnan, any, all. simpl.
    rewrite !length_map, Hshape, Nat.eqb_refl. simpl.
    destruct (existsb _ (zip_with _ _ _)) eqn:Ed; [reflexivity|].
    destruct (forallb _ (map is_nan l)) eqn:Ea; [reflexivity|].
    apply (masked_agree is_nan l m Hshape) in Ed.
    pose proof (@masked_length _ is_nan l m Ed) as Hsel.
    destruct (existsb _ (map is_nan l)) eqn:En; simpl.
    + now rewrite allclose_pairwise.
    + assert (Em : existsb (fun b => b) (map is_nan m) = false)
        by now rewrite <- (@masked_equal _ is_nan l m Ed).
      rewrite (@masked_nothing _ is_nan l En), (@masked_nothing _ is_nan m Em).
      now rewrite allclose_pairwise.
Qed.

End Binary64Close.

Section NanAllcloseBinary64.

Import PrimFloat.
Local Open Scope float_scope.

Lemma pair_close (rtol atol a b : float) :
  Bool.eqb (is_infinity a) (is_infinity b)
  && (if is_infinity a then a =? b else Binary64.within_tol rtol atol a b)
  = true
  <-> is_infinity a = is_infinity b /\
      (is_infinity a = true -> (a =? b) = true) /\
      (is_infinity a = false ->
       (abs (a - b) <=? atol + rtol * abs b) = true).
Proof.
  unfold Binary64.within_tol. rewrite andb_true_iff, Bool.eqb_true_iff.
  destruct (is_infinity a); split.
  - intros [Hi He]. repeat split; auto. discriminate.
  - intros (Hi & He & _). auto.
  - intros [Hi He]. repeat split; auto. discriminate.
  - intros (Hi & _ & He). auto.
Qed.

(** C7, as the code has it: for operands [x] and [y] of the same shape
    and tolerances [rtol], [atol], [nan_allclose] returns [False] if an
    element is not-a-number on one side and a number on the other at
    some position; returns [True] if every element of both is
    not-a-number; and, where the two sides are not-a-number at the same
    positions, returns [True] exactly when every position where neither
    element is not-a-number holds two infinities that are equal, or no
    infinity and two numbers with
    [abs(a - b) <= atol + rtol * abs(b)] in double precision. *)
Theorem nan_allclose_positions (x y : nd float) (rtol atol : float) :
  same_shape x y ->
  ((exists i a b,
      nth_error (elems x) i = Some a /\ nth_error (elems y) i = Some b /\
      is_nan a <> is_nan b) ->
   Binary64.nan_allclose x y rtol atol = Ok false)
  /\
  ((forall a, In a (elems x) -> is_nan a = true) ->
   (forall b, In b (elems y) -> is_nan b = true) ->
   Binary64.nan_allclose x y rtol atol = Ok true)
  /\
  ((forall i a b,
      nth_error (elems x) i = Some a -> nth_error (elems y) i = Some b ->
      is_nan a = is_nan b) ->
   exists r,
     Binary64.nan_allclose x y rtol atol = Ok r /\
     (r = true <->
      forall i a b,
        nth_error (elems x) i = Some a -> nth_error (elems y) i = Some b ->
        is_nan a = false -> is_nan b = false ->
        is_infinity a = is_infinity b /\
        (is_infinity a = true -> (a =? b) = true) /\
        (is_infinity a = false ->
         (abs (a - b) <=? atol + rtol * abs b) = true))).
Proof.
  intros Hshape.
  assert (Hlen : length (elems x) = length (elems y))
    by (destruct x, y; simpl in *; tauto).
  rewrite (nan_allclose_binary64 rtol atol x y Hshape).
  set (l := elems x) in *. set (m := elems y) in *.
  pose proof (Forall2_nth_error (fun a b => is_nan a = is_nan b) l m Hlen)
    as Hagree.
  assert (Hall : forallb (fun b => b) (map is_nan l) = true <->
                 forall a, In a l -> is_nan a = true).
  { rewrite forallb_forall. split.
    - intros H a Ha. apply H. now apply in_map.
    - intros H b Hb. apply in_map_iff in Hb as (a & <- & Ha). now apply H. }
  repeat split.
  - intros (i & a & b & Ha & Hb & Hne).
    destruct (existsb _ _) eqn:Ed; [reflexivity|].
    exfalso. apply Hne. apply (masked_agree is_nan l m Hlen) in Ed.
    rewrite Hagree in Ed. now apply (Ed i).
  - intros Hx Hy.
    assert (Ed : existsb (fun b => b)
                   (zip_with xorb (map is_nan l) (map is_nan m)) = false).
    { apply (masked_agree is_nan l m Hlen), Hagree. intros i a b Ha Hb.
      rewrite (Hx a), (Hy b); eauto using nth_error_In. }
    rewrite Ed. apply Hall in Hx. now rewrite Hx.
  - intros Hsame. apply Hagree in Hsame as Hf.
    apply (masked_agree is_nan l m Hlen) in Hf as Ed.
    rewrite Ed. eexists. split; [reflexivity|].
    destruct (forallb _ (map is_nan l)) eqn:Ea.
    + split; [|reflexivity]. intros _ i a b Ha _ Hna _.
      rewrite (proj1 Hall eq_refl a) in Hna by eauto using nth_error_In.
      discriminate.
    + rewrite (masked_pointwise is_nan _ Hf).
      rewrite (Forall2_nth_error _ l m Hlen). split.
      * intros H i a b Ha Hb Hna Hnb. now apply pair_close, (H i).
      * intros H i a b Ha Hb Hna Hnb. now apply pair_close, (H i).
Qed.

(** Equal infinities are found close although the tolerance test fails
    on them, and a number is found far from an infinity although the
    tolerance test holds. *)
Lemma nan_allclose_infinity_counterexample :
  (Binary64.nan_allclose (Array [infinity]) (Array [infinity]) 1e-5 1e-8
   = Ok true /\
   is_nan infinity = false /\
   (abs (infinity - infinity) <=? 1e-8 + 1e-5 * abs infinity) = false)
  /\
  (Binary64.nan_allclose (Array [1]) (Array [infinity]) 1e-5 1e-8
   = Ok false /\
   is_nan 1 = false /\ is_nan infinity = false /\
   (abs (1 - infinity) <=? 1e-8 + 1e-5 * abs infinity) = true).
Proof. vm_compute. repeat split. Qed.

Lemma nan_allclose_positions_witness :
  Binary64.nan_allclose
    (Array [1.3; nan; infinity]) (Array [1.0; nan; infinity]) 0.2 0.1
  = Ok true.
Proof.
  destruct (@nan_allclose_positions
              (Array [1.3; nan; infinity]) (Array [1.0; nan; infinity])
              0.2 0.1 eq_refl) as (_ & _ & H3).
  destruct H3 as (r & Hrun & Hiff).
  - intros i a b Ha Hb.
    do 3 (destruct i as [|i];
          [injection Ha as <-; injection Hb as <-; reflexivity|]).
    destruct i; discriminate.
  - rewrite Hrun. f_equal. apply Hiff. intros i a b Ha Hb Hna Hnb.
    do 3 (destruct i as [|i];
          [injection Ha as <-; injection Hb as <-;
           first [discriminate Hna | vm_compute; repeat split; discriminate]|]).
    destruct i; discriminate.
Defined.

End NanAllcloseBinary64.


(** * Double precision: [geotransform_to_axes] *)

Section Binary64Axes.

Import PrimFloat.
Local Open Scope float_scope.

Lemma binary64_length_set_last (y : list float) v :
  length (Binary64.set_last y v) = length y.
Proof.
  destruct y as [|a y]; [reflexivity|]. unfold Binary64.set_last.
  rewrite length_app, length_removelast. simpl. lia.
Qed.

Lemma binary64_nth_error_set_last (y : list float) v i :
  (i < length y)%nat ->
  nth_error (Binary64.set_last y v) i
  = if (i =? length y - 1)%nat then Some v else nth_error y i.
Proof.
  intros Hi. destruct y as [|a y]; [simpl in Hi; lia|].
  unfold Binary64.set_last. remember (a :: y) as l eqn:El.
  assert (Hl : length (removelast l) = (length l - 1)%nat)
    by apply length_removelast.
  destruct (Nat.eqb_spec i (length l - 1)) as [->|Hne].
  - rewrite nth_error_app2 by lia. rewrite Hl, Nat.sub_diag. reflexivity.
  - rewrite nth_error_app1 by lia.
    rewrite (app_removelast_last 0 (l := l)) at 2 by (subst; discriminate).
    rewrite nth_error_app1 by lia. reflexivity.
Qed.

Lemma binary64_nth_error_arange n i :
  (i < n)%nat ->
  nth_error (Binary64.arange n) i = Some (Binary64.of_int (Z.of_nat i)).
Proof.
  intros Hi. unfold Binary64.arange. rewrite nth_error_map.
  rewrite (nth_error_nth' _ 0%nat) by (rewrite length_seq; lia).
  rewrite seq_nth by lia. reflexivity.
Qed.

(** What [linspace] returns for a positive number of values: as many
    values; the start alone for one value; otherwise the stop as the
    last value and, before it, the products of the index and the step
    added to the start, each rounded as the processor rounds it. *)
Lemma binary64_linspace (start stop : float) (num : Z) :
  (0 < num)%Z ->
  let x := Binary64.linspace start stop num in
  length x = Z.to_nat num /\
  (num = 1%Z -> x = [start]) /\
  ((2 <= num)%Z ->
   nth_error x (Z.to_nat num - 1) = Some stop /\
   forall i, (i < Z.to_nat num - 1)%nat ->
     nth_error x i
     = Some (Binary64.of_int (Z.of_nat i)
             * ((stop - start) / Binary64.of_int (num - 1)) + start)).
Proof.
  intros Hnum x. unfold x, Binary64.linspace.
  destruct (Z.leb_spec num 0); [lia|].
  destruct (Z.eqb_spec num 1) as [->|Hne].
  - split; [reflexivity|]. split; [reflexivity|]. lia.
  - set (y := map _ (Binary64.arange (Z.to_nat num))).
    assert (Hlen : length y = Z.to_nat num)
      by (unfold y, Binary64.arange; now rewrite !length_map, length_seq).
    split; [now rewrite binary64_length_set_last|].
    split; [contradiction|]. intros _. split.
    + rewrite binary64_nth_error_set_last by lia.
      now rewrite Hlen, Nat.eqb_refl.
    + intros i Hi. rewrite binary64_nth_error_set_last by lia.
      rewrite Hlen. destruct (Nat.eqb_spec i (Z.to_nat num - 1)); [lia|].
      unfold y. now rewrite nth_error_map, binary64_nth_error_arange by lia.
Qed.

(** Comparison of a double with itself, and the two tests on what kind
    of number a double is, read on its specification. *)
Lemma SFeqb_refl (x : SpecFloat.spec_float) :
  x <> SpecFloat.S754_nan -> SpecFloat.SFeqb x x = true.
Proof.
  intros H. unfold SpecFloat.SFeqb.
  destruct x as [s|s| |s m e]; try (now destruct s); [contradiction|].
  simpl. destruct s; rewrite Z.compare_refl, Pos.compare_refl; reflexivity.
Qed.

Lemma is_nan_spec (x : float) :
  is_nan x = true <-> FloatOps.Prim2SF x = SpecFloat.S754_nan.
Proof.
  unfold is_nan. rewrite FloatAxioms.eqb_spec. split.
  - intros H. destruct (FloatOps.Prim2SF x) as [s|s| |s m e] eqn:E; auto;
      rewrite SFeqb_refl in H by discriminate; discriminate.
  - intros ->. reflexivity.
Qed.

Lemma is_infinity_spec (x : float) :
  is_infinity x = true <->
  exists s, FloatOps.Prim2SF x = SpecFloat.S754_infinity s.
Proof.
  unfold is_infinity. rewrite FloatAxioms.eqb_spec, FloatAxioms.abs_spec.
  change (FloatOps.Prim2SF infinity) with (SpecFloat.S754_infinity false).
  destruct (FloatOps.Prim2SF x) as [s|s| |s m e]; simpl; split; intros H;
    try discriminate; eauto; try (destruct H as [s' H]; discriminate).
Qed.

(** The first value of [linspace], [0 * step + start], compares equal to
    the start as soon as the step is a finite number and the start is a
    number. *)
Lemma binary64_first_value (step start : float) :
  is_nan step = false -> is_infinity step = false -> is_nan start = false ->
  (Binary64.of_int 0 * step + start =? start) = true.
Proof.
  intros Hn Hi Hs.
  change (Binary64.of_int 0) with 0.
  rewrite FloatAxioms.eqb_spec, FloatAxioms.add_spec, FloatAxioms.mul_spec.
  change (FloatOps.Prim2SF 0) with (SpecFloat.S754_zero false).
  assert (Hstep : exists s,
            FloatAxioms.SF64mul (SpecFloat.S754_zero false) (FloatOps.Prim2SF step)
            = SpecFloat.S754_zero s).
  { destruct (FloatOps.Prim2SF step) as [s|s| |s m e] eqn:E.
    - eexists; reflexivity.
    - assert (is_infinity step = true) by (apply is_infinity_spec; eauto).
      congruence.
    - assert (is_nan step = true) by (now apply is_nan_spec). congruence.
    - eexists; reflexivity. }
  destruct Hstep as [s ->].
  destruct (FloatOps.Prim2SF start) as [t|t| |t m e] eqn:E.
  - unfold FloatAxioms.SF64add, SpecFloat.SFadd. now destruct s, t.
  - unfold FloatAxioms.SF64add, SpecFloat.SFadd. now destruct t.
  - assert (is_nan start = true) by (now apply is_nan_spec). congruence.
  - unfold FloatAxioms.SF64add, SpecFloat.SFadd. apply SFeqb_refl. discriminate.
Qed.

(** C5, as the code has it: for a geotransform [G] with [G[1] > 0] and
    [-G[5] > 0] and positive [nx], [ny], [geotransform_to_axes] returns
    an x-axis of [nx] values and a y-axis of [ny] values.  An axis of
    one value holds its start, [G[0] + G[1]/2] for x and
    [(G[3] - ny*(-G[5])) + (-G[5])/2] for y.  An axis of more values
    ends on its stop, [(G[0] + nx*G[1]) - G[1]/2] for x and
    [G[3] - (-G[5])/2] for y, and holds before it the values
    [i * step + start] for [step = (stop - start) / (n - 1)], every
    operation rounded to double precision; its first value is equal to
    the start when the step is finite and the start a number.  On
    [(100, 1, 0, 10, 0, -1)] with [nx = ny = 9] the axes are
    [100.5, 101.5, ..., 108.5] and [1.5, 2.5, ..., 9.5]. *)
Theorem geotransform_to_axes_pixel_centres :
  (forall (g0 g1 g2 g3 g4 g5 : float) (nx ny : Z),
     (0 <? g1) = true -> (0 <? - g5) = true -> (0 < nx)%Z -> (0 < ny)%Z ->
     let start_x := g0 + g1 / 2 in
     let stop_x := g0 + Binary64.of_int nx * g1 - g1 / 2 in
     let step_x := (stop_x - start_x) / Binary64.of_int (nx - 1) in
     let start_y := g3 - Binary64.of_int ny * - g5 + - g5 / 2 in
     let stop_y := g3 - - g5 / 2 in
     let step_y := (stop_y - start_y) / Binary64.of_int (ny - 1) in
     exists x y,
       Binary64.geotransform_to_axes [g0; g1; g2; g3; g4; g5] nx ny
       = Ok (x, y) /\
       length x = Z.to_nat nx /\
       length y = Z.to_nat ny /\
       (nx = 1%Z -> x = [start_x]) /\
       (ny = 1%Z -> y = [start_y]) /\
       ((2 <= nx)%Z ->
        nth_error x (Z.to_nat nx - 1) = Some stop_x /\
        (forall i, (i < Z.to_nat nx - 1)%nat ->
           nth_error x i
           = Some (Binary64.of_int (Z.of_nat i) * step_x + start_x)) /\
        (is_nan step_x = false -> is_infinity step_x = false ->
         is_nan start_x = false ->
         exists v, nth_error x 0 = Some v /\ (v =? start_x) = true)) /\
       ((2 <= ny)%Z ->
        nth_error y (Z.to_nat ny - 1) = Some stop_y /\
        (forall i, (i < Z.to_nat ny - 1)%nat ->
           nth_error y i
           = Some (Binary64.of_int (Z.of_nat i) * step_y + start_y)) /\
        (is_nan step_y = false -> is_infinity step_y = false ->
         is_nan start_y = false ->
         exists v, nth_error y 0 = Some v /\ (v =? start_y) = true)))
  /\
  Binary64.geotransform_to_axes [100; 1; 0; 10; 0; -1] 9 9
  = Ok ([100.5; 101.5; 102.5; 103.5; 104.5; 105.5; 106.5; 107.5; 108.5],
        [1.5; 2.5; 3.5; 4.5; 5.5; 6.5; 7.5; 8.5; 9.5]).
Proof.
  split; [|vm_compute; reflexivity].
  intros g0 g1 g2 g3 g4 g5 nx ny Hdx Hdy Hnx Hny
         start_x stop_x step_x start_y stop_y step_y.
  unfold Binary64.geotransform_to_axes. simpl. rewrite Hdx, Hdy. simpl.
  fold start_x stop_x start_y stop_y.
  destruct (binary64_linspace start_x stop_x Hnx) as (Lx & Ox & Mx).
  destruct (binary64_linspace start_y stop_y Hny) as (Ly & Oy & My).
  eexists. eexists. split; [reflexivity|].
  split; [exact Lx|]. split; [exact Ly|].
  split; [exact Ox|]. split; [exact Oy|]. split.
  - intros H2. destruct (Mx H2) as [Hlast Hmid].
    split; [exact Hlast|]. split; [exact Hmid|].
    intros Hn Hi Hs. eexists. split; [apply (Hmid 0%nat); lia|].
    now apply binary64_first_value.
  - intros H2. destruct (My H2) as [Hlast Hmid].
    split; [exact Hlast|]. split; [exact Hmid|].
    intros Hn Hi Hs. eexists. split; [apply (Hmid 0%nat); lia|].
    now apply binary64_first_value.
Qed.

(** With a pixel of [1e-15] at longitude 100 both checks pass and the
    three values of the x-axis are the same number: the values are
    neither a step apart nor increasing. *)
Lemma geotransform_to_axes_rounding_counterexample :
  (0 <? 1e-15) = true /\ (0 <? - -1) = true /\
  Binary64.geotransform_to_axes [100; 1e-15; 0; 10; 0; -1] 3 3
  = Ok ([100; 100; 100], [7.5; 8.5; 9.5]) /\
  (100 <? 100) = false /\ (100 - 100 =? 1e-15) = false.
Proof. vm_compute. repeat split. Qed.

Lemma geotransform_to_axes_pixel_centres_witness :
  exists x y,
    Binary64.geotransform_to_axes [100; 1; 0; 10; 0; -1] 9 9 = Ok (x, y) /\
    length x = 9%nat /\ nth_error x 8 = Some 108.5 /\
    nth_error y 0 = Some 1.5.
Proof.
  destruct (proj1 geotransform_to_axes_pixel_centres
              100 1 0 10 0 (-1) 9%Z 9%Z)
    as (x & y & Hrun & Lx & _ & _ & _ & Mx & My);
    try reflexivity.
  exists x, y. split; [exact Hrun|]. split; [exact Lx|]. split.
  - destruct Mx as [Hlast _]; [discriminate|]. exact Hlast.
  - destruct My as (_ & Hmid & _); [discriminate|].
    rewrite (Hmid 0%nat) by (simpl; lia). f_equal.
Defined.

End Binary64Axes.
